(** * AEM component builder: retrieval and prompt assembly

    A shallow embedding of the four variants of the builder
    ([ai_agent.py], [ai_agent_new.py], [ai_agent_new_2.py],
    [ai_agent_new_4.py]) and the properties of its indexing, retrieval,
    tab detection and result post-processing code.

    Python [str] values are modelled as [string] (a sequence of 8-bit
    characters); the case and whitespace functions below act on the ASCII
    range, which is where all keywords and patterns of the program live.
    The vector store, the file system, the text generator and the JSON
    parser are collaborators of the program: they are arguments of the
    functions that call them. *)

From Stdlib Require Import Strings.String Strings.Ascii Arith.PeanoNat Arith.Arith.
From Stdlib Require Import Bool.Bool micromega.Lia Numbers.DecimalString.
From Stdlib Require Import Numbers.DecimalNat.
From stdpp Require Import base option list strings gmap.

Local Open Scope string_scope.
Local Open Scope list_scope.
Local Open Scope nat_scope.

(** ** Python strings and sequences *)

Module Py.

Definition chars (s : string) : list ascii := list_ascii_of_string s.
Definition str (l : list ascii) : string := string_of_list_ascii l.

(** [len(s)] *)
Definition len (s : string) : nat := String.length s.

(** [s[i:j]] for indices [0 <= i], [0 <= j]: out-of-range bounds are
    clamped, an empty range gives the empty string. *)
Definition slice (s : string) (i j : nat) : string :=
  str (take (j - i) (drop i (chars s))).

(** [range(start, stop, step)] for a positive [step]: CPython computes the
    number of elements as [(stop - start - 1) // step + 1] when
    [start < stop], and element [k] is [start + k * step]. *)
Definition range_len (start stop step : nat) : nat :=
  if start <? stop then S ((stop - start - 1) / step) else 0.

Definition range (start stop step : nat) : list nat :=
  map (fun k => start + k * step) (seq 0 (range_len start stop step)).

(** [sep.join(parts)] *)
Fixpoint join (sep : string) (parts : list string) : string :=
  match parts with
  | [] => ""
  | [p] => p
  | p :: rest => p +:+ sep +:+ join sep rest
  end.

(** [str(i)] for a natural number. *)
Definition str_of_nat (n : nat) : string :=
  NilEmpty.string_of_uint (Nat.to_uint n).

(** Truthiness of a string: [if s:] holds for a non-empty string. *)
Definition truthy (s : string) : bool :=
  match s with EmptyString => false | String _ _ => true end.

(** ASCII letters, and the characters Python's [str.isspace] (and the
    regular expression class [\s]) accept in the ASCII range: tab, line
    feed, vertical tab, form feed, carriage return, the four separators
    0x1c to 0x1f and the space. *)
Definition is_upper (c : ascii) : bool :=
  let n := nat_of_ascii c in (65 <=? n) && (n <=? 90).
Definition is_lower (c : ascii) : bool :=
  let n := nat_of_ascii c in (97 <=? n) && (n <=? 122).
Definition is_alpha (c : ascii) : bool := is_upper c || is_lower c.
Definition is_space (c : ascii) : bool :=
  let n := nat_of_ascii c in
  ((9 <=? n) && (n <=? 13)) || ((28 <=? n) && (n <=? 32)).

Definition to_lower (c : ascii) : ascii :=
  if is_upper c then ascii_of_nat (nat_of_ascii c + 32) else c.
Definition to_upper (c : ascii) : ascii :=
  if is_lower c then ascii_of_nat (nat_of_ascii c - 32) else c.

(** [s.lower()] *)
Definition lower (s : string) : string := str (map to_lower (chars s)).

(** [s.strip()]: leading and trailing whitespace removed. *)
Fixpoint lstrip_chars (l : list ascii) : list ascii :=
  match l with
  | c :: l' => if is_space c then lstrip_chars l' else l
  | [] => []
  end.
Definition strip_chars (l : list ascii) : list ascii :=
  rev (lstrip_chars (rev (lstrip_chars l))).
Definition strip (s : string) : string := str (strip_chars (chars s)).

(** [s.title()]: a cased character is upper-cased when the previous
    character is not cased, and lower-cased when it is. *)
Fixpoint title_chars (prev_cased : bool) (l : list ascii) : list ascii :=
  match l with
  | [] => []
  | c :: l' =>
      if is_alpha c
      then (if prev_cased then to_lower c else to_upper c) :: title_chars true l'
      else c :: title_chars false l'
  end.
Definition title (s : string) : string := str (title_chars false (chars s)).

(** [prefix] is an initial segment of [l]. *)
Fixpoint starts_with (prefix l : list ascii) : bool :=
  match prefix, l with
  | [], _ => true
  | p :: prefix', c :: l' => bool_decide (p = c) && starts_with prefix' l'
  | _ :: _, [] => false
  end.

(** [needle in haystack] on strings. *)
Fixpoint contains_chars (needle l : list ascii) : bool :=
  starts_with needle l ||
  match l with
  | [] => false
  | _ :: l' => contains_chars needle l'
  end.
Definition contains (needle haystack : string) : bool :=
  contains_chars (chars needle) (chars haystack).

(** [x in xs] for a list of strings. *)
Definition mem (x : string) (xs : list string) : bool :=
  bool_decide (x ∈ xs).

(** [list(dict.fromkeys(xs))]: the keys of an insertion-ordered dict, so
    each value is kept at the place where it is first inserted. *)
Definition fromkeys_step (seen : list string) (x : string) : list string :=
  if mem x seen then seen else seen ++ [x].
Definition fromkeys (xs : list string) : list string :=
  foldl fromkeys_step [] xs.

(** The line feed of the Python literals. *)
Definition nl : string := String (ascii_of_nat 10) "".

(** [s.isascii()]: every character has a code below 128. On such texts
    the case and whitespace functions above, and the character classes
    of the patterns below, are those of Python; of other characters
    Python takes more for letters and for whitespace than they do. *)
Definition isascii (s : string) : bool :=
  forallb (fun c => nat_of_ascii c <? 128) (chars s).

End Py.

(** ** The vector store and the document indexer *)

(** A stored chunk: its id, its text and the [source] of its metadata. *)
Record Entry := mkEntry {
  entry_id : string;
  entry_document : string;
  entry_source : string
}.

(** The persistent collection of the vector store. Computing embeddings
    is the store's own business; the program only calls [count], [add]
    and [query]. *)
Module Collection.

Definition t : Type := list Entry.

(** [collection.count()] *)
Definition count (c : t) : nat := length c.

(** [collection.add(documents=[d], metadatas=[{"source": s}], ids=[i])]:
    one record is stored; a record whose id is already stored is left as
    it is. *)
Definition add (c : t) (document source id : string) : t :=
  if Py.mem id (map entry_id c) then c
  else c ++ [mkEntry id document source].

End Collection.

(** The files of the knowledge base: a path that exists maps to the text
    read from it. *)
Definition FileSystem : Type := gmap string string.

Module Indexer.

Definition chunk_size : nat := 800.
Definition overlap : nat := 100.

(** [[text[i:i+chunk_size] for i in range(0, len(text), chunk_size - overlap)]] *)
Definition chunk_text (text : string) : list string :=
  map (fun i => Py.slice text i (i + chunk_size))
      (Py.range 0 (Py.len text) (chunk_size - overlap)).

(** [enumerate(chunks)] *)
Definition enumerate {A} (l : list A) : list (nat * A) :=
  zip (seq 0 (length l)) l.

(** [f"{name}_{i}"] *)
Definition chunk_id (name : string) (i : nat) : string :=
  name +:+ "_" +:+ Py.str_of_nat i.

(** The inner loop: every chunk of one source is added under its id. *)
Definition add_chunks (name : string) (c : Collection.t)
    (chunks : list string) : Collection.t :=
  foldl (fun c ic => Collection.add c (snd ic) name (chunk_id name (fst ic)))
        c (enumerate chunks).

(** One iteration of the loop over [files_map.items()]: a missing file is
    skipped. *)
Definition index_file (fs : FileSystem) (c : Collection.t)
    (entry : string * string) : Collection.t :=
  match fs !! snd entry with
  | None => c
  | Some text => add_chunks (fst entry) c (chunk_text text)
  end.

(** [build_or_load_chroma()], as a function of the files map, the file
    system and the collection found in the persistent store. *)
Definition build_or_load_chroma (files_map : list (string * string))
    (fs : FileSystem) (collection : Collection.t) : Collection.t :=
  if 0 <? Collection.count collection then collection
  else foldl (index_file fs) collection files_map.

End Indexer.

(** ** Fields, exceptions and effects *)

(** A field descriptor: the dict with keys [type], [name] and [label]. *)
Record FieldSpec := mkField {
  f_type : string;
  f_name : string;
  f_label : string
}.

(** A Python exception: whether it is a [json.JSONDecodeError], and
    [str(e)]. *)
Record PyExc := mkExc {
  exc_is_json_decode_error : bool;
  exc_str : string
}.

(** The outcome of a call that may raise. *)
Inductive Res (A : Type) : Type :=
  | Ok (a : A)
  | Raise (e : PyExc).
Arguments Ok {A} a.
Arguments Raise {A} e.

(** What the program does to its collaborators: a query of the vector
    store ([collection.query(query_texts=[text], n_results=k)]) and a call
    of the text generator with a prompt. *)
Inductive Event (P : Type) : Type :=
  | EvQuery (text : string) (n_results : nat)
  | EvGenerate (prompt : P).
Arguments EvQuery {P} text n_results.
Arguments EvGenerate {P} prompt.

(** Computations that may raise and that record the calls they make, in
    order. *)
Definition Eff (P A : Type) : Type := list (Event P) -> Res A * list (Event P).

Module Eff.
Section Ops.
Context {P : Type}.

Definition ret {A} (a : A) : Eff P A := fun log => (Ok a, log).

Definition bind {A B} (m : Eff P A) (f : A -> Eff P B) : Eff P B :=
  fun log =>
    match m log with
    | (Ok a, log') => f a log'
    | (Raise e, log') => (Raise e, log')
    end.

Definition raise {A} (e : PyExc) : Eff P A := fun log => (Raise e, log).

(** [try: body except Exception as e: handler(e)] *)
Definition try_except {A} (body : Eff P A) (handler : PyExc -> Eff P A)
    : Eff P A :=
  fun log =>
    match body log with
    | (Ok a, log') => (Ok a, log')
    | (Raise e, log') => handler e log'
    end.

(** A [try] block in two parts: an exception of [first] goes to
    [handler_first]; its value goes to [rest], which has a handler of its
    own. *)
Definition try_then {A B} (first : Eff P A) (rest : A -> Eff P B)
    (handler_first : PyExc -> Eff P B) : Eff P B :=
  fun log =>
    match first log with
    | (Ok a, log') => rest a log'
    | (Raise e, log') => handler_first e log'
    end.

(** A call of a collaborator: the call is recorded, and its outcome is
    the outcome of the computation. *)
Definition call {A} (ev : Event P) (outcome : Res A) : Eff P A :=
  fun log => (outcome, log ++ [ev]).

(** A pure step that may raise. *)
Definition lift {A} (r : Res A) : Eff P A := fun log => (r, log).

End Ops.
End Eff.

#[global] Instance Eff_ret {P} : MRet (Eff P) := fun A => @Eff.ret P A.
#[global] Instance Eff_bind {P} : MBind (Eff P) :=
  fun A B f m => @Eff.bind P A B m f.

(** The [documents] entry of a query result holds one list of documents
    per query text; [results.get("documents", [[]])[0]] is its first
    element, and an [IndexError] when there is none. *)
Definition index_error : PyExc := mkExc false "list index out of range".

Definition first_documents (documents : list (list string)) : Res (list string) :=
  match documents with
  | docs :: _ => Ok docs
  | [] => Raise index_error
  end.

(** The vector store as the retriever sees it: the [documents] of the
    result of a query, or the exception the query raises. *)
Definition QueryOracle : Type := string -> nat -> Res (list (list string)).

(** [collection.query(...)] followed by [.get("documents", [[]])[0]]. *)
Definition query_documents {P} (query : QueryOracle) (text : string)
    (n_results : nat) : Eff P (list string) :=
  documents ← Eff.call (EvQuery text n_results) (query text n_results);
  Eff.lift (first_documents documents).

(** ["\n\n".join(docs) if docs else ""] *)
Definition join_documents (docs : list string) : string :=
  match docs with
  | [] => ""
  | _ => Py.join (Py.nl +:+ Py.nl) docs
  end.

(** The queries recorded in a log. *)
Definition queries_of {P} (log : list (Event P)) : list (string * nat) :=
  omap (fun ev => match ev with
                  | EvQuery text k => Some (text, k)
                  | EvGenerate _ => None
                  end) log.

(** The three reference texts read from the knowledge base when the
    program starts ([dialog_template], [sling_mappings], [htl_snippets]). *)
Record Templates := mkTemplates {
  dialog_template : string;
  sling_mappings : string;
  htl_snippets : string
}.

(** A value of the parsed generator output: a string, or anything else
    (a number, a list, [null], ...), on which [.strip()] raises. *)
Inductive JValue :=
  | JStr (s : string)
  | JOther.

(** The result of [json.loads]: an object, or another JSON value, on
    which [.get] raises. *)
Inductive Json :=
  | JObject (members : gmap string JValue)
  | JNotObject.

Definition attribute_error : PyExc := mkExc false "object has no attribute".

(** The name bound in a handler is read before it was assigned. *)
Definition unbound_local_error : PyExc :=
  mkExc false "cannot access local variable".

(** [parsed.get(key, "").strip()] *)
Definition get_stripped (parsed : Json) (key : string) : Res string :=
  match parsed with
  | JNotObject => Raise attribute_error
  | JObject members =>
      match members !! key with
      | None => Ok (Py.strip "")
      | Some (JStr s) => Ok (Py.strip s)
      | Some JOther => Raise attribute_error
      end
  end.

(** The placeholder shown while no field has been added. *)
Definition no_fields_markdown : string :=
  "### 📋 Fields Added" +:+ Py.nl +:+ "_(No fields added yet)_".

(** ** [ai_agent.py] *)

Module AiAgent.

Definition TOP_K : nat := 10.

Definition files_map : list (string * string) :=
  [ ("dialog_template", "aem_knowledge_base/dialog_template.txt");
    ("fields_catalog", "aem_knowledge_base/fields_catalog.txt");
    ("sling_examples", "aem_knowledge_base/sling_mappings.txt");
    ("htl_snippets", "aem_knowledge_base/htl_snippets.txt");
    ("js_validation", "aem_knowledge_base/multifield_js_validation.txt") ].

Definition build_or_load_chroma : FileSystem -> Collection.t -> Collection.t :=
  Indexer.build_or_load_chroma files_map.

(** The dict [all_retrieved]. *)
Record Bundle := mkBundle {
  dialog_context : string;
  sling_context : string;
  htl_context : string;
  js_context : string;
  fields_context : string
}.

Definition empty_bundle : Bundle := mkBundle "" "" "" "" "".

(** [' '.join([f['type'] for f in fields])] *)
Definition field_types_str (fields : list FieldSpec) : string :=
  Py.join " " (map f_type fields).

Definition dialog_query (fields : list FieldSpec) : string :=
  "dialog XML structure example granite ui form fields tabs "
  +:+ field_types_str fields.
Definition sling_query (fields : list FieldSpec) : string :=
  "Sling Model Java @Model @ValueMapValue annotations example "
  +:+ field_types_str fields.
Definition htl_query (fields : list FieldSpec) : string :=
  "HTL template data-sly-use Sling Model example " +:+ field_types_str fields.
Definition fields_query (fields : list FieldSpec) : string :=
  "field types examples " +:+ field_types_str fields
  +:+ " sling:resourceType granite properties".
Definition js_query (fields : list FieldSpec) : string :=
  "JavaScript validation example clientlib " +:+ field_types_str fields.

Definition multifield_types : list string :=
  ["Multifield"; "Tags picker"; "Drop down Field"].

(** [any(f['type'] in multifield_types for f in fields)
     or "validation" in user_context.lower()] *)
Definition needs_js (fields : list FieldSpec) (user_context : string) : bool :=
  existsb (fun f => Py.mem (f_type f) multifield_types) fields
  || Py.contains "validation" (Py.lower user_context).

Section Retrieval.
Context {P : Type} (query : QueryOracle).

(** The body of the [try] block of [retrieve_targeted_context]. *)
Definition retrieve_body (fields : list FieldSpec) (user_context : string)
    : Eff P Bundle :=
  let all_retrieved := empty_bundle in
  dialog_docs ← query_documents query (dialog_query fields) TOP_K;
  let all_retrieved :=
    mkBundle (join_documents dialog_docs) (sling_context all_retrieved)
      (htl_context all_retrieved) (js_context all_retrieved)
      (fields_context all_retrieved) in
  sling_docs ← query_documents query (sling_query fields) TOP_K;
  let all_retrieved :=
    mkBundle (dialog_context all_retrieved) (join_documents sling_docs)
      (htl_context all_retrieved) (js_context all_retrieved)
      (fields_context all_retrieved) in
  htl_docs ← query_documents query (htl_query fields) TOP_K;
  let all_retrieved :=
    mkBundle (dialog_context all_retrieved) (sling_context all_retrieved)
      (join_documents htl_docs) (js_context all_retrieved)
      (fields_context all_retrieved) in
  fields_docs ← query_documents query (fields_query fields) TOP_K;
  let all_retrieved :=
    mkBundle (dialog_context all_retrieved) (sling_context all_retrieved)
      (htl_context all_retrieved) (js_context all_retrieved)
      (join_documents fields_docs) in
  if needs_js fields user_context then
    js_docs ← query_documents query (js_query fields) 5;
    mret (mkBundle (dialog_context all_retrieved) (sling_context all_retrieved)
            (htl_context all_retrieved) (join_documents js_docs)
            (fields_context all_retrieved))
  else mret all_retrieved.

(** [retrieve_targeted_context(fields, user_context)] *)
Definition retrieve_targeted_context (fields : list FieldSpec)
    (user_context : string) : Eff P Bundle :=
  Eff.try_except (retrieve_body fields user_context)
    (fun _ => mret empty_bundle).

End Retrieval.

(** [add_field], on the module-level list [fields_data]: the three values
    returned, the third of which is [fields_data] itself, and the list
    after the call. *)
Definition add_field (selected_type field_name field_label current_list : string)
    (fields_data : list FieldSpec)
    : (string * string * list FieldSpec) * list FieldSpec :=
  if negb (Py.truthy field_name) || negb (Py.truthy field_label) then
    ((current_list, "⚠️ Please enter both a field name and label.", fields_data),
     fields_data)
  else
    let fields_data := fields_data ++ [mkField selected_type field_name field_label] in
    let new_entry :=
      "🧩 **" +:+ selected_type +:+ "** — Label: `" +:+ field_label
      +:+ "`, Name: `" +:+ field_name +:+ "`" in
    let updated_list :=
      if bool_decide (current_list = no_fields_markdown)
      then "### 📋 Fields Added" +:+ Py.nl +:+ Py.nl +:+ new_entry
      else current_list +:+ Py.nl +:+ Py.nl +:+ new_entry in
    ((updated_list, "✅ Added " +:+ selected_type +:+ " field successfully.",
      fields_data), fields_data).

(** The values that fill the holes of the prompt text; the text around
    them is fixed. [prompt_fields] stands for [fields_json], the JSON
    rendering of the list. *)
Record Prompt := mkPrompt {
  prompt_fields : list FieldSpec;
  prompt_user_context : string;
  prompt_user_requirements : string;
  prompt_dialog_context : string;
  prompt_fields_context : string;
  prompt_sling_context : string;
  prompt_htl_context : string;
  prompt_js_context : string;
  prompt_templates : Templates
}.

(** [x if x else fallback] *)
Definition or_else (x fallback : string) : string :=
  if Py.truthy x then x else fallback.

Definition full_prompt (templates : Templates) (fields_list : list FieldSpec)
    (user_context : string) (rag_context : Bundle) : Prompt :=
  {| prompt_fields := fields_list;
     prompt_user_context := user_context;
     prompt_user_requirements :=
       or_else user_context "No additional requirements.";
     prompt_dialog_context :=
       or_else (dialog_context rag_context)
         "No dialog examples found - use standard Granite UI structure";
     prompt_fields_context :=
       or_else (fields_context rag_context) "No field examples found";
     prompt_sling_context :=
       or_else (sling_context rag_context) "No sling model examples found";
     prompt_htl_context :=
       or_else (htl_context rag_context) "No HTL examples found";
     prompt_js_context :=
       or_else (js_context rag_context)
         "No JS validation examples found - only include if explicitly needed";
     prompt_templates := templates |}.

(** The four outputs shown to the user. *)
Definition Outputs : Type := string * string * string * string.

(** The checks on the parsed generator output, from the four [.get]
    calls to the final [return]. *)
Definition postprocess (parsed : Json) : Res Outputs :=
  match get_stripped parsed "dialog" with
  | Raise e => Raise e
  | Ok dialog =>
  match get_stripped parsed "sling_model" with
  | Raise e => Raise e
  | Ok sling_model =>
  match get_stripped parsed "htl" with
  | Raise e => Raise e
  | Ok htl =>
  match get_stripped parsed "js_validation" with
  | Raise e => Raise e
  | Ok js =>
      if negb (Py.truthy dialog) then
        Ok ("❌ Failed to generate dialog", "", "", "")
      else if negb (Py.truthy sling_model) then
        Ok ("❌ Failed to generate Sling Model", dialog, "", "")
      else if negb (Py.truthy htl) then
        Ok ("❌ Failed to generate HTL", dialog, sling_model, "")
      else Ok (dialog, sling_model, htl, js)
  end end end end.

Section Generation.
Context (templates : Templates) (query : QueryOracle)
  (generator : Prompt -> Res string) (json_loads : string -> Res Json).

(** The two [except] clauses. [ai_output] is bound only once the
    generator has answered. *)
Definition generation_handler (ai_output : option string) (e : PyExc)
    : Eff Prompt Outputs :=
  if exc_is_json_decode_error e then
    match ai_output with
    | Some ai_output =>
        mret ("❌ JSON parsing error: " +:+ exc_str e +:+ Py.nl +:+ Py.nl
              +:+ "Raw output:" +:+ Py.nl +:+ Py.slice ai_output 0 500,
              "", "", "")
    | None => Eff.raise unbound_local_error
    end
  else mret ("❌ Error generating code: " +:+ exc_str e, "", "", "").

(** [generate_sling_model_with_rag(fields, user_context)] *)
Definition generate_sling_model_with_rag (fields : list FieldSpec)
    (user_context : string) : Eff Prompt Outputs :=
  match fields with
  | [] => mret ("⚠️ Please add at least one field before generating.", "", "", "")
  | _ :: _ =>
      let fields_list :=
        map (fun f => mkField (f_type f) (f_name f) (f_label f)) fields in
      rag_context ← retrieve_targeted_context query fields user_context;
      let prompt := full_prompt templates fields_list user_context rag_context in
      Eff.try_then
        (Eff.call (EvGenerate prompt) (generator prompt))
        (fun ai_output =>
           Eff.try_except
             (parsed ← Eff.lift (json_loads ai_output);
              Eff.lift (postprocess parsed))
             (generation_handler (Some ai_output)))
        (generation_handler None)
  end.

End Generation.

End AiAgent.

(** ** [ai_agent_new.py] *)

Module AiAgentNew.

(** The dict [all_retrieved]. *)
Record Bundle := mkBundle {
  dialog_context : string;
  sling_context : string;
  htl_context : string;
  js_context : string;
  fields_context : string
}.

Definition empty_bundle : Bundle := mkBundle "" "" "" "" "".

Definition dialog_query : string :=
  "dialog XML granite ui container tabs items structure".
Definition sling_query (has_multifield : bool) : string :=
  "Sling Model @Model adaptables DefaultInjectionStrategy @ValueMapValue @Default complete class"
  +:+ (if has_multifield then " @ChildResource List composite multifield" else "").
Definition htl_query : string :=
  "HTL data-sly-use model property access syntax".
Definition fields_query (field_types_str : string) : string :=
  field_types_str +:+ " sling:resourceType granite field properties".
Definition js_query : string :=
  "JavaScript clientlib validation coral foundation".

(** ["validation" in user_context.lower() or "validate" in ... or
     "required" in ...] *)
Definition needs_validation (user_context : string) : bool :=
  Py.contains "validation" (Py.lower user_context)
  || Py.contains "validate" (Py.lower user_context)
  || Py.contains "required" (Py.lower user_context).

(** ["Multifield" in field_types_set] *)
Definition has_multifield (fields : list FieldSpec) : bool :=
  Py.mem "Multifield" (map f_type fields).

Section Retrieval.
(** [set_order] gives the order in which the elements of the set built
    from a list of strings are iterated; the program does not depend on
    which order it is. *)
Context {P : Type} (set_order : list string -> list string)
  (query : QueryOracle).

(** [" ".join(field_types_set)] *)
Definition field_types_str (fields : list FieldSpec) : string :=
  Py.join " " (set_order (map f_type fields)).

(** The body of the [try] block of [retrieve_targeted_context]. *)
Definition retrieve_body (fields : list FieldSpec) (user_context : string)
    : Eff P Bundle :=
  let all_retrieved := empty_bundle in
  dialog_docs ← query_documents query dialog_query 5;
  let all_retrieved :=
    mkBundle (join_documents dialog_docs) (sling_context all_retrieved)
      (htl_context all_retrieved) (js_context all_retrieved)
      (fields_context all_retrieved) in
  sling_docs ← query_documents query (sling_query (has_multifield fields)) 8;
  let all_retrieved :=
    mkBundle (dialog_context all_retrieved) (join_documents sling_docs)
      (htl_context all_retrieved) (js_context all_retrieved)
      (fields_context all_retrieved) in
  htl_docs ← query_documents query htl_query 5;
  let all_retrieved :=
    mkBundle (dialog_context all_retrieved) (sling_context all_retrieved)
      (join_documents htl_docs) (js_context all_retrieved)
      (fields_context all_retrieved) in
  all_retrieved ←
    (if Py.truthy (field_types_str fields) then
       fields_docs ← query_documents query (fields_query (field_types_str fields)) 8;
       mret (mkBundle (dialog_context all_retrieved) (sling_context all_retrieved)
               (htl_context all_retrieved) (js_context all_retrieved)
               (join_documents fields_docs))
     else mret all_retrieved);
  if needs_validation user_context || has_multifield fields then
    js_docs ← query_documents query js_query 3;
    mret (mkBundle (dialog_context all_retrieved) (sling_context all_retrieved)
            (htl_context all_retrieved) (join_documents js_docs)
            (fields_context all_retrieved))
  else mret all_retrieved.

(** [retrieve_targeted_context(fields, user_context)] *)
Definition retrieve_targeted_context (fields : list FieldSpec)
    (user_context : string) : Eff P Bundle :=
  Eff.try_except (retrieve_body fields user_context)
    (fun _ => mret empty_bundle).

End Retrieval.

End AiAgentNew.

(** ** Regular expressions

    The fragment of Python's [re] the program uses, matched the way [re]
    does: by backtracking, alternatives in order, greedy repetition, with
    the flag [re.IGNORECASE]. A pattern here has at most one capturing
    group. *)

Module Re.

Inductive regex :=
  | Chr (c : ascii)                 (* one literal character *)
  | Class (accepts : ascii -> bool) (* one character of a class *)
  | Eps                             (* the empty pattern *)
  | Seq (r1 r2 : regex)
  | Alt (r1 r2 : regex)             (* r1|r2 *)
  | Opt (r : regex)                 (* r? *)
  | Plus (r : regex)                (* r+ *)
  | Group (r : regex).              (* (r), the capturing group *)

(** A literal text, character by character. *)
Fixpoint lit_chars (l : list ascii) : regex :=
  match l with
  | [] => Eps
  | [c] => Chr c
  | c :: l' => Seq (Chr c) (lit_chars l')
  end.
Definition Lit (s : string) : regex := lit_chars (Py.chars s).

(** A run of patterns in sequence. *)
Fixpoint seq_of (rs : list regex) : regex :=
  match rs with
  | [] => Eps
  | [r] => r
  | r :: rs' => Seq r (seq_of rs')
  end.

(** The state of a match attempt: the input still to be read and the
    text of the group, if the group has matched. *)
Definition State : Type := list ascii * option (list ascii).

(** [run r s cap k]: match [r] at the start of [s], then continue with
    [k]; the first success in backtracking order is the result. *)
Fixpoint run {R : Type} (r : regex) (s : list ascii)
    (cap : option (list ascii)) (k : State -> option R) : option R :=
  match r with
  | Chr c =>
      match s with
      | x :: s' =>
          if bool_decide (Py.to_lower x = Py.to_lower c) then k (s', cap) else None
      | [] => None
      end
  | Class accepts =>
      match s with
      | x :: s' => if accepts x then k (s', cap) else None
      | [] => None
      end
  | Eps => k (s, cap)
  | Seq r1 r2 => run r1 s cap (fun st => run r2 (fst st) (snd st) k)
  | Alt r1 r2 =>
      match run r1 s cap k with
      | Some res => Some res
      | None => run r2 s cap k
      end
  | Opt r1 =>
      match run r1 s cap k with
      | Some res => Some res
      | None => k (s, cap)
      end
  | Plus r1 =>
      (fix loop (fuel : nat) (s : list ascii) (cap : option (list ascii))
           : option R :=
         run r1 s cap (fun st =>
           match fuel with
           | 0 => k st
           | S fuel' =>
               if length (fst st) <? length s then
                 match loop fuel' (fst st) (snd st) with
                 | Some res => Some res
                 | None => k st
                 end
               else k st
           end)) (length s) s cap
  | Group r1 =>
      run r1 s cap (fun st =>
        k (fst st, Some (take (length s - length (fst st)) s)))
  end.

(** [re.match] at the start of [s]: the rest of the input after the
    match, and the text of the group. *)
Definition match_at (r : regex) (s : list ascii) : option State :=
  run r s None Some.

(** [re.findall(pattern, text)] for a pattern with one group: the text of
    the group of each match, the empty string for a group that did not
    take part; matches are searched from left to right and do not
    overlap. The patterns of the program start with a literal, so a match
    is never empty; after an empty match the search moves on by one
    character. *)
Fixpoint findall_chars (fuel : nat) (r : regex) (s : list ascii)
    : list (list ascii) :=
  match fuel with
  | 0 => []
  | S fuel' =>
      match match_at r s with
      | Some (rest, cap) =>
          default [] cap ::
          (if length rest <? length s then findall_chars fuel' r rest
           else match s with
                | [] => []
                | _ :: s' => findall_chars fuel' r s'
                end)
      | None =>
          match s with
          | [] => []
          | _ :: s' => findall_chars fuel' r s'
          end
      end
  end.

Definition findall (r : regex) (text : string) : list string :=
  map Py.str (findall_chars (S (Py.len text)) r (Py.chars text)).

End Re.

(** ** [ai_agent_new_2.py] *)

Module AiAgentNew2.

(** The value stored in [multifield_info] for a Multifield:
    [{"label": ..., "child_fields": []}]. *)
Record MultifieldInfo := mkMultifieldInfo {
  mf_label : string;
  child_fields : list string
}.

(** [d[key] = value] on an insertion-ordered dict: the value of a key
    that is present is replaced where it stands, a new key goes last. *)
Fixpoint dict_set {V} (d : list (string * V)) (key : string) (value : V)
    : list (string * V) :=
  match d with
  | [] => [(key, value)]
  | (k, v) :: d' =>
      if bool_decide (k = key) then (k, value) :: d'
      else (k, v) :: dict_set d' key value
  end.

(** The loop that builds [multifield_info], from the dict built so far:
    one entry per field of type Multifield, with an empty list of child
    fields. Nothing else of the program writes to [child_fields]. *)
Definition multifield_loop (info : list (string * MultifieldInfo))
    (fields : list FieldSpec) : list (string * MultifieldInfo) :=
  foldl (fun info f =>
           if bool_decide (f_type f = "Multifield")
           then dict_set info (f_name f) (mkMultifieldInfo (f_label f) [])
           else info)
        info fields.

(** [multifield_info] after the loop, which starts from the empty dict. *)
Definition multifield_info (fields : list FieldSpec)
    : list (string * MultifieldInfo) :=
  multifield_loop [] fields.

(** [fields_list], the copy of the fields made by the same loop. *)
Definition fields_list (fields : list FieldSpec) : list FieldSpec :=
  map (fun f => mkField (f_type f) (f_name f) (f_label f)) fields.

(** [[f['name'] for f in fields_list]] *)
Definition component_field_names (fields : list FieldSpec) : list string :=
  map f_name (fields_list fields).

(** The values that fill the holes of [multifield_context_note]: the
    joined names of the Multifields and the names of all fields. The rest
    of the note is fixed text, which tells the generator to keep child
    names apart from field names. *)
Record MultifieldNote := mkMultifieldNote {
  note_multifield_names : string;
  note_component_field_names : list string
}.

(** [multifield_context_note]; [None] stands for the empty string it is
    when there is no Multifield or no user context. *)
Definition multifield_context_note (fields : list FieldSpec)
    (user_context : string) : option MultifieldNote :=
  match multifield_info fields with
  | [] => None
  | info =>
      if Py.truthy user_context then
        Some (mkMultifieldNote (Py.join ", " (map fst info))
                (component_field_names fields))
      else None
  end.

End AiAgentNew2.

(** ** [ai_agent_new_4.py] *)

Module AiAgentNew4.

Definition files_map : list (string * string) :=
  [ ("dialog_template", "aem_knowledge_base/dialog_template.txt");
    ("fields_catalog", "aem_knowledge_base/fields_catalog.txt");
    ("sling_examples", "aem_knowledge_base/sling_mappings.txt");
    ("htl_snippets", "aem_knowledge_base/htl_snippets.txt") ].

(** *** Tab detection *)

Definition tab_keywords : list string :=
  [ "separate tab"; "different tab"; "another tab"; "in a tab";
    "tab with name"; "tab name as"; "tab named";
    "configuration tab"; "content tab"; "properties tab";
    "settings tab"; "data tab"; "additional tab" ].

(** [any(keyword in context_lower for keyword in [...])] *)
Definition has_tab_mention (context_lower : string) : bool :=
  existsb (fun keyword => Py.contains keyword context_lower) tab_keywords.

(** The class of letters and whitespace of the patterns, and the class
    of the two quote characters (codes 34 and 39). *)
Definition name_char (c : ascii) : bool := Py.is_alpha c || Py.is_space c.
Definition quote_char (c : ascii) : bool :=
  (nat_of_ascii c =? 34) || (nat_of_ascii c =? 39).

Definition quote_opt : Re.regex := Re.Opt (Re.Class quote_char).
Definition name_group : Re.regex := Re.Group (Re.Plus (Re.Class name_char)).

(** The four patterns of [tab_patterns], in order. *)
Definition tab_patterns : list Re.regex :=
  [ Re.seq_of [ Re.Lit "tab "; Re.Opt (Re.Lit "with "); Re.Lit "name ";
                Re.Opt (Re.Alt (Re.Lit "as ") (Re.Lit "is "));
                quote_opt; name_group; quote_opt ];
    Re.seq_of [ Re.Lit "in "; Re.Opt (Re.Alt (Re.Lit "a ") (Re.Lit "the "));
                quote_opt; name_group; quote_opt; Re.Lit " tab" ];
    Re.seq_of [ Re.Lit "separate tab ";
                Re.Opt (Re.Alt (Re.Lit "with name ") (Re.Lit "as "));
                quote_opt; Re.Opt name_group; quote_opt ];
    Re.seq_of [ Re.Lit "another tab ";
                Re.Opt (Re.Alt (Re.Lit "with name ") (Re.Lit "as "));
                quote_opt; Re.Opt name_group; quote_opt ] ].

(** [[m.strip().title() for m in matches if m.strip()]] *)
Definition tab_names_of_matches (matches : list string) : list string :=
  map (fun m => Py.title (Py.strip m))
      (filter (fun m => Py.truthy (Py.strip m) = true) matches).

(** The names collected by the loop over the patterns, before
    duplicates are removed. *)
Definition tab_candidates (context_lower : string) : list string :=
  flat_map (fun pattern => tab_names_of_matches (Re.findall pattern context_lower))
           tab_patterns.

(** [detected_tabs] after [list(dict.fromkeys(detected_tabs))]. *)
Definition detected_tabs (context_lower : string) : list string :=
  Py.fromkeys (tab_candidates context_lower).

(** [tab_analysis] *)
Definition tab_analysis (detected_tabs : list string) : string :=
  "Detected tab names from context: "
  +:+ match detected_tabs with
      | [] => "No explicit names found"
      | _ => Py.join ", " detected_tabs
      end.

(** [tab_instructions]: the empty string, or the fixed instruction text
    with [tab_analysis], which is computed from the detected names, in
    its one hole. *)
Inductive TabInstructions :=
  | NoTabInstructions
  | TabOrganizationDetected (detected_tabs : list string).

Definition tab_instructions (user_context : string) : TabInstructions :=
  if Py.truthy user_context then
    let context_lower := Py.lower user_context in
    if has_tab_mention context_lower
    then TabOrganizationDetected (detected_tabs context_lower)
    else NoTabInstructions
  else NoTabInstructions.

(** The tab names a request carries. *)
Definition tabs_of (instructions : TabInstructions) : list string :=
  match instructions with
  | NoTabInstructions => []
  | TabOrganizationDetected detected_tabs => detected_tabs
  end.

(** The text that fills the hole of the instructions, if any. *)
Definition tab_text_of (instructions : TabInstructions) : string :=
  match instructions with
  | NoTabInstructions => ""
  | TabOrganizationDetected detected_tabs => tab_analysis detected_tabs
  end.

(** *** Retrieval *)

(** The dict [all_retrieved]; this variant has no [js_context]. *)
Record Bundle := mkBundle {
  dialog_context : string;
  sling_context : string;
  htl_context : string;
  fields_context : string
}.

Definition empty_bundle : Bundle := mkBundle "" "" "" "".

Definition dialog_query : string :=
  "dialog XML granite ui container tabs items structure".
Definition sling_query (has_multifield : bool) : string :=
  "Sling Model @Model adaptables DefaultInjectionStrategy @ValueMapValue @Default complete class"
  +:+ (if has_multifield
       then " @ChildResource @PostConstruct ValueMap POJO inner class ArrayList multifield composite"
       else "").
Definition htl_query : string :=
  "HTL data-sly-use model property access syntax".
Definition fields_query (field_types_str : string) : string :=
  field_types_str +:+ " sling:resourceType granite field properties".

Definition has_multifield (fields : list FieldSpec) : bool :=
  Py.mem "Multifield" (map f_type fields).

Section Retrieval.
Context {P : Type} (set_order : list string -> list string)
  (query : QueryOracle).

Definition field_types_str (fields : list FieldSpec) : string :=
  Py.join " " (set_order (map f_type fields)).

Definition retrieve_body (fields : list FieldSpec) (user_context : string)
    : Eff P Bundle :=
  let all_retrieved := empty_bundle in
  dialog_docs ← query_documents query dialog_query 5;
  let all_retrieved :=
    mkBundle (join_documents dialog_docs) (sling_context all_retrieved)
      (htl_context all_retrieved) (fields_context all_retrieved) in
  sling_docs ← query_documents query (sling_query (has_multifield fields)) 8;
  let all_retrieved :=
    mkBundle (dialog_context all_retrieved) (join_documents sling_docs)
      (htl_context all_retrieved) (fields_context all_retrieved) in
  htl_docs ← query_documents query htl_query 5;
  let all_retrieved :=
    mkBundle (dialog_context all_retrieved) (sling_context all_retrieved)
      (join_documents htl_docs) (fields_context all_retrieved) in
  if Py.truthy (field_types_str fields) then
    fields_docs ← query_documents query (fields_query (field_types_str fields)) 8;
    mret (mkBundle (dialog_context all_retrieved) (sling_context all_retrieved)
            (htl_context all_retrieved) (join_documents fields_docs))
  else mret all_retrieved.

Definition retrieve_targeted_context (fields : list FieldSpec)
    (user_context : string) : Eff P Bundle :=
  Eff.try_except (retrieve_body fields user_context)
    (fun _ => mret empty_bundle).

End Retrieval.

(** *** The request and the generation *)

(** The values that fill the holes of the prompt text. *)
Record Prompt := mkPrompt {
  prompt_fields : list FieldSpec;
  prompt_user_requirements : string;
  prompt_tab_instructions : TabInstructions;
  prompt_multifield_context_note : option AiAgentNew2.MultifieldNote;
  prompt_dialog_context : string;
  prompt_fields_context : string;
  prompt_sling_context : string;
  prompt_htl_context : string;
  prompt_templates : Templates
}.

Definition or_else (x fallback : string) : string :=
  if Py.truthy x then x else fallback.

Definition full_prompt (templates : Templates) (fields : list FieldSpec)
    (user_context : string) (rag_context : Bundle) : Prompt :=
  {| prompt_fields := AiAgentNew2.fields_list fields;
     prompt_user_requirements :=
       or_else user_context
         "No additional requirements - use standard AEM best practices.";
     prompt_tab_instructions := tab_instructions user_context;
     prompt_multifield_context_note :=
       AiAgentNew2.multifield_context_note fields user_context;
     prompt_dialog_context :=
       or_else (dialog_context rag_context)
         "Use standard Granite UI container/tabs structure";
     prompt_fields_context :=
       or_else (fields_context rag_context) "Use standard Granite UI field types";
     prompt_sling_context :=
       or_else (sling_context rag_context)
         "Use @Model with adaptables=Resource.class and @ValueMapValue";
     prompt_htl_context :=
       or_else (htl_context rag_context) "Use data-sly-use for model binding";
     prompt_templates := templates |}.

(** The three outputs shown to the user. *)
Definition Outputs : Type := string * string * string.

Definition postprocess (parsed : Json) : Res Outputs :=
  match get_stripped parsed "dialog" with
  | Raise e => Raise e
  | Ok dialog =>
  match get_stripped parsed "sling_model" with
  | Raise e => Raise e
  | Ok sling_model =>
  match get_stripped parsed "htl" with
  | Raise e => Raise e
  | Ok htl =>
      if negb (Py.truthy dialog) then
        Ok ("❌ Failed to generate dialog", "", "")
      else if negb (Py.truthy sling_model) then
        Ok ("❌ Failed to generate Sling Model", dialog, "")
      else if negb (Py.truthy htl) then
        Ok ("❌ Failed to generate HTL", dialog, sling_model)
      else Ok (dialog, sling_model, htl)
  end end end.

Section Generation.
Context (templates : Templates) (set_order : list string -> list string)
  (query : QueryOracle) (generator : Prompt -> Res string)
  (json_loads : string -> Res Json).

Definition generation_handler (ai_output : option string) (e : PyExc)
    : Eff Prompt Outputs :=
  if exc_is_json_decode_error e then
    match ai_output with
    | Some ai_output =>
        mret ("❌ JSON parsing error: " +:+ exc_str e +:+ Py.nl +:+ Py.nl
              +:+ "Raw output:" +:+ Py.nl +:+ Py.slice ai_output 0 500,
              "", "")
    | None => Eff.raise unbound_local_error
    end
  else mret ("❌ Error generating code: " +:+ exc_str e, "", "").

(** [generate_sling_model_with_rag(fields, user_context)] *)
Definition generate_sling_model_with_rag (fields : list FieldSpec)
    (user_context : string) : Eff Prompt Outputs :=
  match fields with
  | [] => mret ("⚠️ Please add at least one field before generating.", "", "")
  | _ :: _ =>
      rag_context ← retrieve_targeted_context set_order query fields user_context;
      let prompt := full_prompt templates fields user_context rag_context in
      Eff.try_then
        (Eff.call (EvGenerate prompt) (generator prompt))
        (fun ai_output =>
           Eff.try_except
             (parsed ← Eff.lift (json_loads ai_output);
              Eff.lift (postprocess parsed))
             (generation_handler (Some ai_output)))
        (generation_handler None)
  end.

End Generation.

(** The generator calls recorded in a log. *)
Definition prompts_of (log : list (Event Prompt)) : list Prompt :=
  omap (fun ev => match ev with
                  | EvQuery _ _ => None
                  | EvGenerate p => Some p
                  end) log.

End AiAgentNew4.

(** Inputs used in the examples below. *)
Module Examples.

Definition title_field : FieldSpec := mkField "Text Field" "title" "Title".
Definition text_field : FieldSpec := mkField "Text Field" "text" "Text".
Definition items_field : FieldSpec := mkField "Multifield" "items" "Items".
Definition tags_field : FieldSpec := mkField "Tags picker" "tags" "Tags".

Definition no_templates : Templates := mkTemplates "" "" "".

(** Texts of 701 and of 1450 characters, and a knowledge base whose only
    file is the second one. *)
Definition text_701 : string := Py.str (replicate 701 "a"%char).
Definition text_1450 : string := Py.str (replicate 1450 "a"%char).
Definition one_file : FileSystem :=
  {[ "aem_knowledge_base/dialog_template.txt" := text_1450 ]}.

(** A vector store that answers every query with one document, and one
    whose every query raises. *)
Definition one_document : QueryOracle := fun _ _ => Ok [["doc"]].
Definition unavailable : QueryOracle :=
  fun _ _ => Raise (mkExc false "store unavailable").

End Examples.

(** ** Reference definitions *)

Module Reference.

(** Duplicates removed, first-seen order kept: each element stays where
    it first occurs and its later occurrences are dropped. The tab
    detection is compared with this definition below. *)
Fixpoint first_occurrences (xs : list string) : list string :=
  match xs with
  | [] => []
  | x :: xs' => x :: filter (fun y => y <> x) (first_occurrences xs')
  end.

End Reference.

(** ** The contents of a freshly built index *)

Module IndexerReference.

(** The records of the chunks of one source: chunk [i] under the id
    [name_i], tagged with the name of the source. *)
Definition entries_of_chunks (name : string) (chunks : list string) : list Entry :=
  map (fun ic => mkEntry (Indexer.chunk_id name (fst ic)) (snd ic) name)
      (Indexer.enumerate chunks).

(** The records of one entry of the files map: none for a missing file. *)
Definition entries_of_file (fs : FileSystem) (entry : string * string)
    : list Entry :=
  match fs !! snd entry with
  | None => []
  | Some text => entries_of_chunks (fst entry) (Indexer.chunk_text text)
  end.

(** The records of all files, in the order of the files map. *)
Definition entries_of_files (files_map : list (string * string))
    (fs : FileSystem) : list Entry :=
  flat_map (entries_of_file fs) files_map.

(** The number of chunks of a file: none for a missing file. *)
Definition chunks_of_file (fs : FileSystem) (entry : string * string) : nat :=
  match fs !! snd entry with
  | None => 0
  | Some text => (Py.len text + 699) / 700
  end.

End IndexerReference.

(** ** Answers of the vector store *)

Module RetrievalReference.

(** A query is answered when it returns, with at least one list of
    documents. *)
Definition answered (query : QueryOracle) (q : string * nat) : bool :=
  match query (fst q) (snd q) with
  | Ok (_ :: _) => true
  | _ => false
  end.

(** The joined documents of an answered query. *)
Definition context_of (query : QueryOracle) (text : string) (k : nat) : string :=
  match query text k with
  | Ok (docs :: _) => join_documents docs
  | _ => ""
  end.

End RetrievalReference.

(** More inputs for the examples. *)
Module MoreExamples.

(** A vector store that answers every query but the JavaScript one. *)
Definition fails_on_javascript : QueryOracle :=
  fun text _ =>
    if Py.contains "JavaScript" text
    then Raise (mkExc false "store unavailable")
    else Ok [["doc"]].

(** A generator that answers with a fixed text, and one that raises. *)
Definition fixed_answer (P : Type) : P -> Res string := fun _ => Ok "{...}".
Definition refuses (P : Type) : P -> Res string :=
  fun _ => Raise (mkExc false "rate limit").

(** A parser that rejects every text, and one that returns an object
    with a dialog, a Sling model, an HTL template and a [null] where the
    JavaScript should be. *)
Definition rejects : string -> Res Json :=
  fun _ => Raise (mkExc true "Expecting value").
Definition null_javascript : string -> Res Json :=
  fun _ => Ok (JObject {[ "dialog" := JStr "<jcr:root/>";
                          "sling_model" := JStr "class M {}";
                          "htl" := JStr "<div/>";
                          "js_validation" := JOther ]}).

End MoreExamples.

(** ** The session of [ai_agent.py]: its globals and its buttons *)

Module AiAgentSession.

(** The module-level variables [fields_data] and [extra_context]. *)
Record Globals := mkGlobals {
  fields_data : list FieldSpec;
  extra_context : string
}.

(** [reset_fields()]: both globals are set anew; the six values returned
    go to the list of fields, the status and the four code panels. *)
Definition reset_fields (g : Globals)
    : (string * string * string * string * string * string) * Globals :=
  ((no_fields_markdown, "", "", "", "", ""), mkGlobals [] "").

(** [set_context_chat(prompt)] *)
Definition set_context_chat (prompt : string) (g : Globals) : string * Globals :=
  ("🧠 Context added successfully:" +:+ Py.nl +:+ "> " +:+ prompt,
   mkGlobals (fields_data g) prompt).

(** What is on screen and in [fields_data] between two clicks. *)
Definition Screen : Type := string * list FieldSpec.

(** A click on the button that adds a field: [add_field] is called with
    the type, the name and the label typed in, and with the list of
    fields now displayed, which its first result replaces. *)
Definition click_add (screen : Screen) (input : string * string * string)
    : Screen :=
  let result :=
    AiAgent.add_field (fst (fst input)) (snd (fst input)) (snd input)
      (fst screen) (snd screen) in
  (fst (fst (fst result)), snd result).

(** The screen after a reset. *)
Definition screen_after_reset (g : Globals) : Screen :=
  (fst (fst (fst (fst (fst (fst (reset_fields g)))))),
   fields_data (snd (reset_fields g))).

(** An input that [add_field] accepts: a name and a label are given. *)
Definition accepted (input : string * string * string) : bool :=
  Py.truthy (snd (fst input)) && Py.truthy (snd input).

(** The line displayed for an added field. *)
Definition entry_line (input : string * string * string) : string :=
  "🧩 **" +:+ fst (fst input) +:+ "** — Label: `" +:+ snd input
  +:+ "`, Name: `" +:+ snd (fst input) +:+ "`".

(** The list displayed for the fields added so far. *)
Definition displayed (inputs : list (string * string * string)) : string :=
  match inputs with
  | [] => no_fields_markdown
  | _ => "### 📋 Fields Added" +:+ Py.nl +:+ Py.nl
         +:+ Py.join (Py.nl +:+ Py.nl) (map entry_line inputs)
  end.

Definition field_of (input : string * string * string) : FieldSpec :=
  mkField (fst (fst input)) (snd (fst input)) (snd input).

End AiAgentSession.

(** ** Patterns with a group over one class *)

Module ReReference.

(** The patterns without repetition outside the group, whose group, if
    any, is [(C+)] for the one class [accepts]. *)
Inductive group_over (accepts : ascii -> bool) : Re.regex -> Prop :=
  | over_chr c : group_over accepts (Re.Chr c)
  | over_class p : group_over accepts (Re.Class p)
  | over_eps : group_over accepts Re.Eps
  | over_seq r1 r2 :
      group_over accepts r1 -> group_over accepts r2 ->
      group_over accepts (Re.Seq r1 r2)
  | over_alt r1 r2 :
      group_over accepts r1 -> group_over accepts r2 ->
      group_over accepts (Re.Alt r1 r2)
  | over_opt r : group_over accepts r -> group_over accepts (Re.Opt r)
  | over_group : group_over accepts (Re.Group (Re.Plus (Re.Class accepts))).

(** The text of the group, when there is one, is made of characters of
    the class. *)
Definition capture_in (accepts : ascii -> bool) (cap : option (list ascii))
    : Prop :=
  forall l, cap = Some l -> Forall (fun c => accepts c = true) l.

End ReReference.

(** ** The request of [ai_agent_new.py] *)

Module AiAgentNewGeneration.

(** The values that fill the holes of the prompt text. *)
Record Prompt := mkPrompt {
  prompt_fields : list FieldSpec;
  prompt_user_requirements : string;
  prompt_dialog_context : string;
  prompt_fields_context : string;
  prompt_sling_context : string;
  prompt_htl_context : string;
  prompt_js_context : string;
  prompt_templates : Templates
}.

(** [rag_context['js_context'] if rag_context['js_context'] and
     ('validation' in user_context.lower()
      or any(f['type'] == 'Multifield' for f in fields)) else ""] *)
Definition js_section (fields : list FieldSpec) (user_context : string)
    (rag_context : AiAgentNew.Bundle) : string :=
  if Py.truthy (AiAgentNew.js_context rag_context)
     && (Py.contains "validation" (Py.lower user_context)
         || existsb (fun f => bool_decide (f_type f = "Multifield")) fields)
  then AiAgentNew.js_context rag_context
  else "".

Definition full_prompt (templates : Templates) (fields : list FieldSpec)
    (user_context : string) (rag_context : AiAgentNew.Bundle) : Prompt :=
  {| prompt_fields := AiAgentNew2.fields_list fields;
     prompt_user_requirements :=
       AiAgent.or_else user_context
         "No additional requirements - use standard AEM best practices.";
     prompt_dialog_context :=
       AiAgent.or_else (AiAgentNew.dialog_context rag_context)
         "Use standard Granite UI container/tabs structure";
     prompt_fields_context :=
       AiAgent.or_else (AiAgentNew.fields_context rag_context)
         "Use standard Granite UI field types";
     prompt_sling_context :=
       AiAgent.or_else (AiAgentNew.sling_context rag_context)
         "Use @Model with adaptables=Resource.class and @ValueMapValue";
     prompt_htl_context :=
       AiAgent.or_else (AiAgentNew.htl_context rag_context)
         "Use data-sly-use for model binding";
     prompt_js_context := js_section fields user_context rag_context;
     prompt_templates := templates |}.

Section Generation.
Context (templates : Templates) (set_order : list string -> list string)
  (query : QueryOracle) (generator : Prompt -> Res string)
  (json_loads : string -> Res Json).

Definition generation_handler (ai_output : option string) (e : PyExc)
    : Eff Prompt AiAgent.Outputs :=
  if exc_is_json_decode_error e then
    match ai_output with
    | Some ai_output =>
        mret ("❌ JSON parsing error: " +:+ exc_str e +:+ Py.nl +:+ Py.nl
              +:+ "Raw output:" +:+ Py.nl +:+ Py.slice ai_output 0 500,
              "", "", "")
    | None => Eff.raise unbound_local_error
    end
  else mret ("❌ Error generating code: " +:+ exc_str e, "", "", "").

(** [generate_sling_model_with_rag(fields, user_context)]; the checks on
    the parsed answer are the statements of [ai_agent.py]. *)
Definition generate_sling_model_with_rag (fields : list FieldSpec)
    (user_context : string) : Eff Prompt AiAgent.Outputs :=
  match fields with
  | [] => mret ("⚠️ Please add at least one field before generating.", "", "", "")
  | _ :: _ =>
      rag_context ←
        AiAgentNew.retrieve_targeted_context set_order query fields user_context;
      let prompt := full_prompt templates fields user_context rag_context in
      Eff.try_then
        (Eff.call (EvGenerate prompt) (generator prompt))
        (fun ai_output =>
           Eff.try_except
             (parsed ← Eff.lift (json_loads ai_output);
              Eff.lift (AiAgent.postprocess parsed))
             (generation_handler (Some ai_output)))
        (generation_handler None)
  end.

End Generation.

End AiAgentNewGeneration.

(** ** Entries of the parsed answer *)

Module ParsedAnswer.



End ParsedAnswer.

(** * Properties *)

(** ** Strings as character lists *)

Lemma chars_str (l : list ascii) : Py.chars (Py.str l) = l.
Proof. apply list_ascii_of_string_of_list_ascii. Qed.

Lemma str_chars (s : string) : Py.str (Py.chars s) = s.
Proof. apply string_of_list_ascii_of_string. Qed.

Lemma len_str (l : list ascii) : Py.len (Py.str l) = length l.
Proof.
  induction l as [|c l IH]; simpl; [reflexivity|].
  unfold Py.len in *. simpl. now rewrite IH.
Qed.

Lemma len_chars (s : string) : length (Py.chars s) = Py.len s.
Proof. rewrite <- (str_chars s) at 2. now rewrite len_str. Qed.

Lemma len_slice (s : string) (i j : nat) :
  Py.len (Py.slice s i j) = Nat.min (j - i) (Py.len s - i).
Proof.
  unfold Py.slice. rewrite len_str, length_take, length_drop, len_chars.
  reflexivity.
Qed.

(** ** Chunking *)

Section Chunking.

Import Indexer.

Lemma range_len_chunks (L : nat) :
  Py.range_len 0 L (chunk_size - overlap) = (L + 699) / 700.
Proof.
  unfold Py.range_len, chunk_size, overlap.
  change (800 - 100) with 700.
  destruct (Nat.ltb_spec 0 L) as [H|H].
  - replace (L + 699) with ((L - 0 - 1) + 1 * 700) by lia.
    rewrite Nat.div_add by lia. lia.
  - replace L with 0 by lia. reflexivity.
Qed.

Lemma length_chunk_text (text : string) :
  length (chunk_text text) = (Py.len text + 699) / 700.
Proof.
  unfold chunk_text, Py.range.
  rewrite !length_map, length_seq. apply range_len_chunks.
Qed.

Lemma lookup_chunk_text (text : string) (i : nat) :
  i < length (chunk_text text) ->
  chunk_text text !! i = Some (Py.slice text (i * 700) (i * 700 + 800)).
Proof.
  intros Hi. unfold chunk_text, Py.range in *.
  rewrite !length_map, length_seq in Hi.
  rewrite !list_lookup_fmap, lookup_seq_lt by exact Hi.
  reflexivity.
Qed.

Ltac div700 x :=
  let q := fresh "q" in
  let r := fresh "r" in
  pose proof (Nat.div_mod_eq x 700);
  pose proof (Nat.mod_upper_bound x 700 ltac:(lia));
  generalize dependent (x / 700); generalize dependent (x mod 700);
  intros r ? q; intros.

Lemma chunk_text_inv (text c : string) (i : nat) :
  chunk_text text !! i = Some c ->
  i < (Py.len text + 699) / 700 /\
  c = Py.slice text (i * 700) (i * 700 + 800).
Proof.
  intros Hc. pose proof (lookup_lt_Some _ _ _ Hc) as Hi.
  rewrite lookup_chunk_text in Hc by exact Hi.
  rewrite length_chunk_text in Hi. split; [exact Hi | congruence].
Qed.

(** The first 700 characters of the chunks, put end to end, are the
    first [700 * n] characters of the text. *)
Lemma concat_chunk_heads (l : list ascii) (n : nat) :
  concat (map (fun k => take 700 (take (k * 700 + 800 - k * 700) (drop (k * 700) l)))
              (seq 0 n)) = take (n * 700) l.
Proof.
  induction n as [|n IH].
  - reflexivity.
  - rewrite seq_S, map_app, concat_app, IH. simpl concat.
    rewrite app_nil_r, take_take.
    replace (700 `min` (n * 700 + 800 - n * 700)) with 700 by lia.
    rewrite take_take_drop. f_equal. lia.
Qed.

(** C1 (as amended): the chunks of a text of length [L] are the slices
    [text[700*i : 700*i + 800]] for [i] below [ceil(L / 700)]; chunk [i]
    has length [min 800 (L - 700*i)], which is positive, is exactly 800
    whenever [700*i + 800 <= L] and so for every chunk but possibly the
    last two; every chunk that has a successor reaches the successor's
    start (no gap); every position of the text lies in a chunk that holds
    its character; and the first 700 characters of the chunks put end to
    end give the text back. *)
Theorem chunk_text_layout (text : string) :
  let L := Py.len text in
  let chunks := chunk_text text in
  length chunks = (L + 699) / 700
  /\ (forall i c, chunks !! i = Some c ->
        c = Py.slice text (i * 700) (i * 700 + 800)
        /\ Py.len c = Nat.min 800 (L - i * 700)
        /\ 0 < Py.len c
        /\ (i * 700 + 800 <= L -> Py.len c = 800)
        /\ (i + 2 < length chunks -> Py.len c = 800)
        /\ (i + 1 < length chunks -> (i + 1) * 700 <= i * 700 + Py.len c))
  /\ (forall p, p < L ->
        exists i c, chunks !! i = Some c
          /\ i * 700 <= p < i * 700 + Py.len c
          /\ Py.chars c !! (p - i * 700) = Py.chars text !! p)
  /\ Py.str (concat (map (fun c => take 700 (Py.chars c)) chunks)) = text.
Proof.
  intros L chunks. subst chunks.
  pose proof (length_chunk_text text) as Hlen. fold L in Hlen.
  split; [exact Hlen|]. split; [|split].
  - intros i c Hc. apply chunk_text_inv in Hc as [Hi ->]. fold L in Hi.
    rewrite Hlen, len_slice. fold L.
    split; [reflexivity|].
    div700 (L + 699). repeat split; lia.
  - intros p Hp. exists (p / 700), (Py.slice text (p / 700 * 700) (p / 700 * 700 + 800)).
    assert (p / 700 < length (chunk_text text)) as Hi.
    { rewrite Hlen. div700 p. div700 (L + 699). lia. }
    split; [now apply lookup_chunk_text|].
    rewrite len_slice. fold L. split.
    + div700 p. lia.
    + unfold Py.slice. rewrite chars_str.
      rewrite lookup_take_lt by (div700 p; lia).
      rewrite lookup_drop. f_equal. div700 p. lia.
  - unfold chunk_text, Py.range. rewrite range_len_chunks. fold L.
    rewrite !map_map. unfold Py.slice, chunk_size.
    erewrite map_ext; [|intros k; rewrite chars_str; simpl; reflexivity].
    rewrite concat_chunk_heads, take_ge.
    + apply str_chars.
    + rewrite len_chars. fold L. div700 (L + 699). lia.
Qed.

End Chunking.

(** A text of 1450 characters has three chunks, of 800, 750 and 50
    characters. *)
Lemma chunk_text_layout_witness :
  length (Indexer.chunk_text Examples.text_1450) = 3
  /\ Py.len (Py.slice Examples.text_1450 0 800) = 800
  /\ map Py.len (Indexer.chunk_text Examples.text_1450) = [800; 750; 50].
Proof.
  destruct (chunk_text_layout Examples.text_1450) as (Hlen & Hall & _).
  split; [rewrite Hlen; vm_compute; reflexivity|].
  split; [|vm_compute; reflexivity].
  destruct (Hall 0 (Py.slice Examples.text_1450 0 800)) as (_ & _ & _ & Hfull & _).
  - vm_compute. reflexivity.
  - apply Hfull. vm_compute. lia.
Defined.

(** C1, counterexample: for a text of 701 characters the chunks start at
    0 and 700, and the first chunk, which is not the last one, has 701
    characters and not 800. *)
Lemma chunk_not_last_shorter :
  ~ (forall i c, Indexer.chunk_text Examples.text_701 !! i = Some c ->
       i + 1 < length (Indexer.chunk_text Examples.text_701) ->
       Py.len c = 800).
Proof.
  intros H.
  specialize (H 0 (Py.slice Examples.text_701 0 800)).
  assert (Py.len (Py.slice Examples.text_701 0 800) = 701) as E
    by (vm_compute; reflexivity).
  rewrite E in H.
  assert (701 = 800) as F; [|lia].
  apply H; vm_compute; [reflexivity | lia].
Qed.

(** ** Idempotent indexing *)

(** C2: a collection that already holds a chunk is returned as it is, with
    nothing added; and a second call of [build_or_load_chroma] on the
    result of a first one, with the same files, returns that result again,
    so [count()] is the same after the second call. *)
Theorem build_or_load_chroma_idempotent
    (files_map : list (string * string)) (fs : FileSystem)
    (collection : Collection.t) :
  let build := Indexer.build_or_load_chroma files_map fs in
  (0 < Collection.count collection -> build collection = collection)
  /\ build (build collection) = build collection
  /\ Collection.count (build (build collection))
     = Collection.count (build collection).
Proof.
  intros build. subst build.
  assert (forall c, 0 < Collection.count c ->
            Indexer.build_or_load_chroma files_map fs c = c) as Hpos.
  { intros c Hc. unfold Indexer.build_or_load_chroma.
    destruct (Nat.ltb_spec 0 (Collection.count c)); [reflexivity | lia]. }
  assert (Indexer.build_or_load_chroma files_map fs
            (Indexer.build_or_load_chroma files_map fs collection)
          = Indexer.build_or_load_chroma files_map fs collection) as Hidem.
  { destruct (Nat.ltb_spec 0
      (Collection.count (Indexer.build_or_load_chroma files_map fs collection)))
      as [Hc|Hc].
    - now apply Hpos.
    - assert (Indexer.build_or_load_chroma files_map fs collection = [])
        as Hnil by (apply length_zero_iff_nil; unfold Collection.count in Hc; lia).
      destruct collection as [|e c].
      + now rewrite Hnil.
      + rewrite Hpos in Hnil by (simpl; lia). discriminate. }
  split; [|split].
  - apply Hpos.
  - exact Hidem.
  - now rewrite Hidem.
Qed.

(** An empty store and a knowledge base with one file of 1450
    characters: the first call stores three chunks, the second none. *)
Lemma build_or_load_chroma_idempotent_witness :
  let built := AiAgent.build_or_load_chroma Examples.one_file [] in
  Collection.count built = 3
  /\ AiAgent.build_or_load_chroma Examples.one_file built = built
  /\ Collection.count (AiAgent.build_or_load_chroma Examples.one_file built) = 3.
Proof.
  intros built.
  destruct (build_or_load_chroma_idempotent AiAgent.files_map Examples.one_file [])
    as (_ & Hsame & Hcount).
  assert (Collection.count built = 3) as H3 by (vm_compute; reflexivity).
  split; [exact H3|]. split; [exact Hsame|].
  unfold AiAgent.build_or_load_chroma in *. fold built in Hcount.
  rewrite Hcount. exact H3.
Defined.

(** ** Retrieval *)

Ltac unfold_eff :=
  unfold Eff.try_except, Eff.try_then, query_documents, Eff.call, Eff.lift,
    mbind, Eff_bind, Eff.bind, mret, Eff_ret, Eff.ret, Eff.raise in *.

Section RetrievalFacts.
Context {P : Type} (set_order : list string -> list string).

(** The retrievers never raise, whatever the vector store does. *)
Lemma retrieve_total (query : QueryOracle) (fields : list FieldSpec)
    (user_context : string) (log : list (Event P)) :
  (exists b log', AiAgent.retrieve_targeted_context query fields user_context log
                  = (Ok b, log'))
  /\ (exists b log',
        AiAgentNew.retrieve_targeted_context set_order query fields user_context log
        = (Ok b, log')).
Proof.
  split.
  - unfold AiAgent.retrieve_targeted_context, Eff.try_except.
    destruct (AiAgent.retrieve_body query fields user_context log) as [[b|e] log'];
      unfold mret, Eff_ret, Eff.ret; eauto.
  - unfold AiAgentNew.retrieve_targeted_context, Eff.try_except.
    destruct (AiAgentNew.retrieve_body set_order query fields user_context log)
      as [[b|e] log']; unfold mret, Eff_ret, Eff.ret; eauto.
Qed.

(** C5: when every query of the vector store raises, both retrievers
    return (they do not raise) the bundle whose entries are all empty
    strings, after the one query they attempted. *)
Theorem retrieve_degrades_to_empty (query : QueryOracle)
    (fields : list FieldSpec) (user_context : string) (log : list (Event P)) :
  (forall text k, exists e, query text k = Raise e) ->
  AiAgent.retrieve_targeted_context query fields user_context log
    = (Ok (AiAgent.mkBundle "" "" "" "" ""),
       log ++ [EvQuery (AiAgent.dialog_query fields) 10])
  /\ AiAgentNew.retrieve_targeted_context set_order query fields user_context log
    = (Ok (AiAgentNew.mkBundle "" "" "" "" ""),
       log ++ [EvQuery AiAgentNew.dialog_query 5]).
Proof.
  intros Hraise. split.
  - unfold AiAgent.retrieve_targeted_context, AiAgent.retrieve_body.
    unfold_eff.
    destruct (Hraise (AiAgent.dialog_query fields) AiAgent.TOP_K) as [e ->].
    reflexivity.
  - unfold AiAgentNew.retrieve_targeted_context, AiAgentNew.retrieve_body.
    unfold_eff.
    destruct (Hraise AiAgentNew.dialog_query 5) as [e ->].
    reflexivity.
Qed.

End RetrievalFacts.

(** A vector store whose every query raises. *)
Lemma retrieve_degrades_to_empty_witness :
  fst (AiAgent.retrieve_targeted_context (P := unit) Examples.unavailable
         [Examples.title_field] "add validation" [])
    = Ok AiAgent.empty_bundle
  /\ fst (AiAgentNew.retrieve_targeted_context (P := unit) (fun l => l)
            Examples.unavailable [Examples.title_field] "add validation" [])
    = Ok AiAgentNew.empty_bundle.
Proof.
  destruct (retrieve_degrades_to_empty (P := unit) (fun l => l)
              Examples.unavailable [Examples.title_field] "add validation" [])
    as [H1 H2].
  - intros text k. eexists. reflexivity.
  - rewrite H1, H2. split; reflexivity.
Defined.

Lemma chars_append (s1 s2 : string) :
  Py.chars (s1 +:+ s2) = Py.chars s1 ++ Py.chars s2.
Proof. induction s1 as [|c s1 IH]; simpl; [reflexivity | now rewrite IH]. Qed.

Lemma chars_inj (s1 s2 : string) : Py.chars s1 = Py.chars s2 -> s1 = s2.
Proof. intros H. rewrite <- (str_chars s1), <- (str_chars s2). now rewrite H. Qed.

Lemma append_same_length_suffix (x y a b : string) :
  Py.len a = Py.len b -> x +:+ a = y +:+ b -> a = b.
Proof.
  intros Hlen Heq. apply chars_inj.
  apply (f_equal Py.chars) in Heq. rewrite !chars_append in Heq.
  apply app_inj_2 in Heq as [_ ?]; [assumption|].
  now rewrite !len_chars.
Qed.

(** The query for field types of [ai_agent_new.py] is never the text of
    its JavaScript query. *)
Lemma fields_query_not_js_query (field_types_str : string) :
  AiAgentNew.fields_query field_types_str <> AiAgentNew.js_query.
Proof.
  unfold AiAgentNew.fields_query, AiAgentNew.js_query. intros H.
  change "JavaScript clientlib validation coral foundation"
    with ("Java" +:+ "Script clientlib validation coral foundation") in H.
  apply append_same_length_suffix in H; [discriminate | reflexivity].
Qed.

Lemma existsb_mem_false (fields : list FieldSpec) (types : list string) :
  (forall f, f ∈ fields -> f_type f ∉ types) ->
  existsb (fun f => Py.mem (f_type f) types) fields = false.
Proof.
  intros H. induction fields as [|f fields IH]; [reflexivity|].
  simpl. rewrite IH by (intros g Hg; apply H; now right).
  unfold Py.mem. rewrite bool_decide_eq_false_2; [reflexivity|].
  apply H. now left.
Qed.

Ltac destruct_queries query :=
  repeat match goal with
    | |- context [query ?text ?k] =>
        let docs := fresh "docs" in
        destruct (query text k) as [[|docs ?]|?]; simpl
    end.

Ltac solve_no_js_query :=
  simpl; intros ? ? Hin;
  repeat (apply elem_of_cons in Hin as [Hin|Hin];
          [injection Hin as -> ->; try discriminate|]);
  try (apply elem_of_nil in Hin; contradiction).

Section JsQueryGate.
Context {P : Type} (set_order : list string -> list string)
  (query : QueryOracle).

(** C7 (as amended): in [ai_agent.py] no JavaScript query is made and the
    [js_context] entry is the empty string when no field has one of the
    types Multifield, Tags picker, Drop down Field and the lower-cased
    context does not contain "validation"; in [ai_agent_new.py], when no
    field has type Multifield and the lower-cased context contains none
    of "validation", "validate", "required". *)
Theorem js_query_only_when_needed (fields : list FieldSpec)
    (user_context : string) :
  ((forall f, f ∈ fields ->
      f_type f ∉ ["Multifield"; "Tags picker"; "Drop down Field"]) ->
   Py.contains "validation" (Py.lower user_context) = false ->
   exists b log,
     AiAgent.retrieve_targeted_context (P := P) query fields user_context []
       = (Ok b, log)
     /\ AiAgent.js_context b = ""
     /\ forall text k, (text, k) ∈ queries_of log ->
          text <> AiAgent.js_query fields)
  /\ ((forall f, f ∈ fields -> f_type f <> "Multifield") ->
      Py.contains "validation" (Py.lower user_context) = false ->
      Py.contains "validate" (Py.lower user_context) = false ->
      Py.contains "required" (Py.lower user_context) = false ->
      exists b log,
        AiAgentNew.retrieve_targeted_context (P := P) set_order query fields
          user_context [] = (Ok b, log)
        /\ AiAgentNew.js_context b = ""
        /\ forall text k, (text, k) ∈ queries_of log ->
             text <> AiAgentNew.js_query).
Proof.
  split.
  - intros Htypes Hctx.
    unfold AiAgent.retrieve_targeted_context, AiAgent.retrieve_body,
      AiAgent.needs_js, AiAgent.multifield_types.
    rewrite (existsb_mem_false _ _ Htypes), Hctx. simpl orb. cbv iota.
    unfold_eff. simpl.
    destruct_queries query;
      (eexists; eexists; split; [reflexivity|]; split; [reflexivity|]);
      solve_no_js_query.
  - intros Htypes H1 H2 H3.
    assert (AiAgentNew.has_multifield fields = false) as Hm.
    { unfold AiAgentNew.has_multifield, Py.mem.
      apply bool_decide_eq_false_2. intros Hin.
      apply list_elem_of_fmap in Hin as (f & Hf & Hin).
      now apply (Htypes f Hin). }
    unfold AiAgentNew.retrieve_targeted_context, AiAgentNew.retrieve_body,
      AiAgentNew.needs_validation.
    rewrite Hm, H1, H2, H3. simpl orb. cbv iota.
    unfold_eff. simpl.
    destruct (Py.truthy (AiAgentNew.field_types_str set_order fields));
      destruct_queries query;
      (eexists; eexists; split; [reflexivity|]; split; [reflexivity|]);
      solve_no_js_query;
      try (now apply fields_query_not_js_query).
Qed.

End JsQueryGate.

(** A field of type Text Field only, and no keyword in the context. *)
Lemma js_query_only_when_needed_witness :
  exists b log,
    AiAgent.retrieve_targeted_context (P := unit) Examples.one_document
      [Examples.title_field] "make the title bold" [] = (Ok b, log)
    /\ AiAgent.js_context b = ""
    /\ forall text k, (text, k) ∈ queries_of log ->
         text <> AiAgent.js_query [Examples.title_field].
Proof.
  apply (proj1 (js_query_only_when_needed (P := unit) (fun l => l)
                  Examples.one_document [Examples.title_field]
                  "make the title bold")).
  - intros f Hf. apply list_elem_of_singleton in Hf as ->. simpl.
    intros Hin.
    repeat (apply elem_of_cons in Hin as [Hin|Hin]; [discriminate|]).
    now apply elem_of_nil in Hin.
  - vm_compute. reflexivity.
Defined.

(** C7, counterexample: in [ai_agent.py] a field of type Tags picker,
    with an empty context and so no validation keyword and no Multifield,
    makes the JavaScript query and fills [js_context]. *)
Lemma tags_picker_makes_js_query :
  let fields := [Examples.tags_field] in
  let user_context := "" in
  ~ ((forall f, f ∈ fields -> f_type f <> "Multifield") ->
     Py.contains "validation" (Py.lower user_context) = false ->
     exists b log,
       AiAgent.retrieve_targeted_context (P := unit) Examples.one_document
         fields user_context [] = (Ok b, log)
       /\ AiAgent.js_context b = ""
       /\ forall text k, (text, k) ∈ queries_of log ->
            text <> AiAgent.js_query fields).
Proof.
  intros fields user_context H.
  destruct H as (b & log & Heq & Hjs & Hq).
  - intros f Hf. apply list_elem_of_singleton in Hf as ->. discriminate.
  - vm_compute. reflexivity.
  - vm_compute in Heq. injection Heq as <- <-.
    vm_compute in Hjs. discriminate.
Qed.

(** ** Generation *)

Section GenerationFacts.
Context (templates : Templates) (set_order : list string -> list string)
  (query : QueryOracle) (json_loads : string -> Res Json).


(** C9: with an empty list of fields both generation functions return
    the warning with every other output empty, and the log of calls is
    the one they were given: no query of the vector store is made and the
    generator is not called. *)
Theorem generate_without_fields
    (generator : AiAgent.Prompt -> Res string)
    (generator4 : AiAgentNew4.Prompt -> Res string)
    (user_context : string)
    (log : list (Event AiAgent.Prompt)) (log4 : list (Event AiAgentNew4.Prompt)) :
  AiAgent.generate_sling_model_with_rag templates query generator json_loads
    [] user_context log
  = (Ok ("⚠️ Please add at least one field before generating.", "", "", ""), log)
  /\ AiAgentNew4.generate_sling_model_with_rag templates set_order query generator4
       json_loads [] user_context log4
  = (Ok ("⚠️ Please add at least one field before generating.", "", ""), log4).
Proof. split; reflexivity. Qed.

End GenerationFacts.

(** ** Adding a field *)

(** C10: when the field name or the field label is the empty string,
    [add_field] leaves the list of fields as it was, returns the
    displayed list it was given, and returns the warning message. *)
Theorem add_field_rejects_empty
    (selected_type field_name field_label current_list : string)
    (fields_data : list FieldSpec) :
  field_name = "" \/ field_label = "" ->
  AiAgent.add_field selected_type field_name field_label current_list fields_data
  = ((current_list, "⚠️ Please enter both a field name and label.", fields_data),
     fields_data).
Proof.
  intros [-> | ->]; unfold AiAgent.add_field; simpl.
  - reflexivity.
  - now rewrite orb_true_r.
Qed.

Lemma add_field_rejects_empty_witness :
  AiAgent.add_field "Text Field" "title" "" no_fields_markdown [Examples.text_field]
  = ((no_fields_markdown, "⚠️ Please enter both a field name and label.",
      [Examples.text_field]), [Examples.text_field]).
Proof. apply add_field_rejects_empty. right. reflexivity. Defined.

(** With a name and a label the field is appended. *)
Lemma add_field_appends (selected_type field_name field_label current_list : string)
    (fields_data : list FieldSpec) :
  field_name <> "" -> field_label <> "" ->
  snd (AiAgent.add_field selected_type field_name field_label current_list
         fields_data)
  = fields_data ++ [mkField selected_type field_name field_label].
Proof.
  intros Hn Hl. unfold AiAgent.add_field.
  destruct field_name; [congruence|]. destruct field_label; [congruence|].
  reflexivity.
Qed.

(** ** Incomplete generator output *)

Lemma truthy_false (s : string) : Py.truthy s = false <-> s = "".
Proof. destruct s; simpl; split; congruence. Qed.

Lemma truthy_true (s : string) : Py.truthy s = true <-> s <> "".
Proof. destruct s; simpl; split; congruence. Qed.

(** The checks of [ai_agent.py] on the stripped entries of the parsed
    output. *)
Lemma postprocess_cases (parsed : Json) (dialog sling_model htl js : string) :
  get_stripped parsed "dialog" = Ok dialog ->
  get_stripped parsed "sling_model" = Ok sling_model ->
  get_stripped parsed "htl" = Ok htl ->
  get_stripped parsed "js_validation" = Ok js ->
  (dialog = "" ->
     AiAgent.postprocess parsed = Ok ("❌ Failed to generate dialog", "", "", ""))
  /\ (dialog <> "" -> sling_model = "" ->
      AiAgent.postprocess parsed
      = Ok ("❌ Failed to generate Sling Model", dialog, "", ""))
  /\ (dialog <> "" -> sling_model <> "" -> htl = "" ->
      AiAgent.postprocess parsed
      = Ok ("❌ Failed to generate HTL", dialog, sling_model, ""))
  /\ (dialog <> "" -> sling_model <> "" -> htl <> "" ->
      AiAgent.postprocess parsed = Ok (dialog, sling_model, htl, js)).
Proof.
  intros Hd Hs Hh Hj. unfold AiAgent.postprocess. rewrite Hd, Hs, Hh, Hj.
  repeat split; intros;
    repeat match goal with
      | H : ?s = "" |- _ => apply truthy_false in H; rewrite H
      | H : ?s <> "" |- _ => apply truthy_true in H; rewrite H
      end; reflexivity.
Qed.


Section PartialFailure.
Context (templates : Templates) (set_order : list string -> list string)
  (query : QueryOracle) (json_loads : string -> Res Json).

(** When the generator answers and its answer parses, the outputs of
    [generate_sling_model_with_rag] are those of the checks. *)
Lemma generate_postprocess (generator : AiAgent.Prompt -> Res string)
    (f : FieldSpec) (fields : list FieldSpec) (user_context ai_output : string)
    (parsed : Json) (outputs : AiAgent.Outputs) :
  (forall p, generator p = Ok ai_output) ->
  json_loads ai_output = Ok parsed ->
  AiAgent.postprocess parsed = Ok outputs ->
  fst (AiAgent.generate_sling_model_with_rag templates query generator json_loads
         (f :: fields) user_context []) = Ok outputs.
Proof.
  intros Hgen Hjson Hpost. unfold AiAgent.generate_sling_model_with_rag.
  destruct (retrieve_total (P := AiAgent.Prompt) set_order query (f :: fields)
              user_context []) as [(b & log' & Hr) _].
  unfold mbind, Eff_bind, Eff.bind. rewrite Hr.
  unfold_eff. rewrite Hgen, Hjson, Hpost. reflexivity.
Qed.




End PartialFailure.



(** ** Removing duplicates *)

Section FromKeys.

Import Reference.

Lemma first_occurrences_filter (P : string -> Prop) `{!forall x, Decision (P x)}
    (l : list string) :
  first_occurrences (filter P l) = filter P (first_occurrences l).
Proof.
  induction l as [|x l IH]; [reflexivity|].
  simpl first_occurrences at 2.
  destruct (decide (P x)) as [Hx|Hx].
  - rewrite !filter_cons_True by assumption. simpl. f_equal.
    rewrite IH, !list_filter_filter. apply list_filter_iff.
    intros y. intuition congruence.
  - rewrite !filter_cons_False by assumption.
    rewrite IH, list_filter_filter. apply list_filter_iff.
    intros y. intuition congruence.
Qed.

Lemma foldl_fromkeys_step (acc xs : list string) :
  foldl Py.fromkeys_step acc xs
  = acc ++ first_occurrences (filter (fun y => y ∉ acc) xs).
Proof.
  revert acc. induction xs as [|x xs IH]; intros acc.
  - simpl. now rewrite app_nil_r.
  - simpl foldl. rewrite IH. unfold Py.fromkeys_step, Py.mem.
    destruct (decide (x ∈ acc)) as [Hx|Hx].
    + rewrite bool_decide_eq_true_2 by assumption.
      rewrite filter_cons_False by tauto. reflexivity.
    + rewrite bool_decide_eq_false_2 by assumption.
      rewrite filter_cons_True by assumption. simpl.
      rewrite <- app_assoc. simpl. do 2 f_equal.
      rewrite <- first_occurrences_filter, list_filter_filter.
      f_equal. apply list_filter_iff. intros y.
      rewrite elem_of_app, list_elem_of_singleton. intuition congruence.
Qed.

Lemma filter_not_in_nil (xs : list string) :
  filter (fun y => y ∉ @nil string) xs = xs.
Proof.
  induction xs as [|x xs IH]; [reflexivity|].
  rewrite filter_cons_True by apply not_elem_of_nil. now rewrite IH.
Qed.

Lemma fromkeys_first_occurrences (xs : list string) :
  Py.fromkeys xs = first_occurrences xs.
Proof.
  unfold Py.fromkeys. rewrite foldl_fromkeys_step. simpl.
  now rewrite filter_not_in_nil.
Qed.

Lemma elem_of_first_occurrences (x : string) (xs : list string) :
  x ∈ first_occurrences xs <-> x ∈ xs.
Proof.
  induction xs as [|y xs IH]; [reflexivity|].
  simpl. rewrite !elem_of_cons, list_elem_of_filter, IH.
  destruct (decide (x = y)); intuition congruence.
Qed.

Lemma NoDup_first_occurrences (xs : list string) : NoDup (first_occurrences xs).
Proof.
  induction xs as [|y xs IH]; simpl; [constructor|].
  constructor.
  - rewrite list_elem_of_filter. intuition congruence.
  - now apply NoDup_filter.
Qed.

End FromKeys.

(** ** Tab detection *)

Ltac all_ascii c :=
  destruct c as [[] [] [] [] [] [] [] []]; vm_compute; try reflexivity;
  try discriminate.

Lemma is_lower_to_upper (c : ascii) : Py.is_lower (Py.to_upper c) = false.
Proof. all_ascii c. Qed.

Lemma is_space_to_upper (c : ascii) :
  Py.is_space c = false -> Py.is_space (Py.to_upper c) = false.
Proof. all_ascii c. Qed.

Lemma is_lower_alpha (c : ascii) : Py.is_alpha c = false -> Py.is_lower c = false.
Proof. all_ascii c. Qed.

Lemma lstrip_chars_snoc (l : list ascii) (c : ascii) :
  Py.is_space c = false -> exists l', Py.lstrip_chars (l ++ [c]) = l' ++ [c].
Proof.
  intros Hc. induction l as [|x l IH]; simpl.
  - rewrite Hc. now exists [].
  - destruct (Py.is_space x); [exact IH|]. now exists (x :: l).
Qed.

Lemma lstrip_chars_head (l : list ascii) (c : ascii) (rest : list ascii) :
  Py.lstrip_chars l = c :: rest -> Py.is_space c = false.
Proof.
  induction l as [|x l IH]; simpl; [discriminate|].
  destruct (Py.is_space x) eqn:Hx; [exact IH|].
  intros [= <- _]. exact Hx.
Qed.

(** A stripped string does not start with whitespace. *)
Lemma strip_chars_head (l : list ascii) (c : ascii) (rest : list ascii) :
  Py.strip_chars l = c :: rest -> Py.is_space c = false.
Proof.
  unfold Py.strip_chars.
  destruct (Py.lstrip_chars l) as [|c0 l1] eqn:Hl; [discriminate|].
  pose proof (lstrip_chars_head _ _ _ Hl) as Hc0.
  simpl rev.
  destruct (lstrip_chars_snoc (rev l1) c0 Hc0) as [l' ->].
  rewrite rev_app_distr. simpl. intros [= <- _]. exact Hc0.
Qed.

(** A title-cased, stripped, non-empty name starts with a character that
    is neither a lower-case letter nor whitespace. *)
Lemma title_strip_head (m : string) :
  Py.strip m <> "" ->
  exists c rest, Py.title (Py.strip m) = String c rest
    /\ Py.is_lower c = false /\ Py.is_space c = false.
Proof.
  unfold Py.title, Py.strip. rewrite chars_str.
  destruct (Py.strip_chars (Py.chars m)) as [|c l] eqn:Hs; [now intros []|].
  intros _. apply strip_chars_head in Hs. simpl.
  destruct (Py.is_alpha c) eqn:Ha; simpl; eexists; eexists;
    (split; [reflexivity|]).
  - split; [apply is_lower_to_upper | now apply is_space_to_upper].
  - split; [now apply is_lower_alpha | assumption].
Qed.

Lemma elem_of_tab_candidates (context_lower t : string) :
  t ∈ AiAgentNew4.tab_candidates context_lower <->
  exists pattern m,
    pattern ∈ AiAgentNew4.tab_patterns
    /\ m ∈ Re.findall pattern context_lower
    /\ Py.strip m <> ""
    /\ t = Py.title (Py.strip m).
Proof.
  unfold AiAgentNew4.tab_candidates, AiAgentNew4.tab_names_of_matches.
  rewrite list_elem_of_In, in_flat_map. split.
  - intros (pattern & Hp & Ht). apply list_elem_of_In in Hp, Ht.
    apply list_elem_of_fmap in Ht as (m & -> & Hm).
    apply list_elem_of_filter in Hm as [Hm1 Hm2].
    exists pattern, m. repeat split; try assumption.
    now apply truthy_true.
  - intros (pattern & m & Hp & Hm & Hs & ->). exists pattern.
    split; [now apply list_elem_of_In|].
    apply list_elem_of_In, list_elem_of_fmap. exists m. split; [reflexivity|].
    apply list_elem_of_filter. split; [now apply truthy_true | assumption].
Qed.

(** C8 (as amended): when the context is not empty and mentions a tab
    keyword, the tab part of the request is made of the detected names,
    which are the names captured by the four patterns, stripped and
    title-cased, empty ones left out, with duplicates removed in
    first-seen order. Every such name starts with a character that is not
    a lower-case letter: the program builds display titles only, and no
    lower-camel-case node name. *)
Theorem detected_tabs_are_titles (user_context : string) :
  let context_lower := Py.lower user_context in
  let tabs := AiAgentNew4.detected_tabs context_lower in
  (user_context <> "" -> AiAgentNew4.has_tab_mention context_lower = true ->
     AiAgentNew4.tab_instructions user_context
     = AiAgentNew4.TabOrganizationDetected tabs)
  /\ tabs = Reference.first_occurrences (AiAgentNew4.tab_candidates context_lower)
  /\ NoDup tabs
  /\ (forall t, t ∈ tabs <->
        exists pattern m,
          pattern ∈ AiAgentNew4.tab_patterns
          /\ m ∈ Re.findall pattern context_lower
          /\ Py.strip m <> ""
          /\ t = Py.title (Py.strip m))
  /\ (forall t, t ∈ tabs ->
        exists c rest, t = String c rest
          /\ Py.is_lower c = false /\ Py.is_space c = false).
Proof.
  intros context_lower tabs.
  assert (tabs = Reference.first_occurrences
                   (AiAgentNew4.tab_candidates context_lower)) as Htabs
    by apply fromkeys_first_occurrences.
  assert (forall t, t ∈ tabs <-> t ∈ AiAgentNew4.tab_candidates context_lower)
    as Hmem by (intros t; rewrite Htabs; apply elem_of_first_occurrences).
  split; [|split; [exact Htabs|split; [|split]]].
  - intros Hne Hmention. unfold AiAgentNew4.tab_instructions.
    apply truthy_true in Hne. rewrite Hne. fold context_lower.
    now rewrite Hmention.
  - rewrite Htabs. apply NoDup_first_occurrences.
  - intros t. rewrite Hmem. apply elem_of_tab_candidates.
  - intros t Ht. apply Hmem, elem_of_tab_candidates in Ht
      as (pattern & m & _ & _ & Hs & ->).
    now apply title_strip_head.
Qed.

(** C8, counterexample: for a context that names the tab
    [user settings], the request carries the title [User Settings] and
    nothing else about the tab: the lower-camel-case name [userSettings]
    is neither among the names nor in the text made from them. *)
Lemma no_lower_camel_node_name :
  let user_context := "put the fields in user settings tab" in
  let instructions := AiAgentNew4.tab_instructions user_context in
  instructions = AiAgentNew4.TabOrganizationDetected ["User Settings"]
  /\ ~ ("userSettings" ∈ AiAgentNew4.tabs_of instructions
        \/ Py.contains "userSettings" (AiAgentNew4.tab_text_of instructions)
           = true).
Proof.
  intros user_context instructions.
  assert (instructions = AiAgentNew4.TabOrganizationDetected ["User Settings"])
    as -> by (vm_compute; reflexivity).
  split; [reflexivity|]. intros [H | H].
  - simpl in H. apply list_elem_of_singleton in H. discriminate.
  - vm_compute in H. discriminate.
Qed.

(** ** Tabs and fields in the request *)

Lemma fields_list_id (fields : list FieldSpec) :
  AiAgentNew2.fields_list fields = fields.
Proof.
  unfold AiAgentNew2.fields_list.
  induction fields as [|[t n l] fields IH]; simpl; [reflexivity|].
  now rewrite IH.
Qed.

Lemma retrieve4_prompts (set_order : list string -> list string)
    (query : QueryOracle) (fields : list FieldSpec) (user_context : string) :
  exists b log,
    AiAgentNew4.retrieve_targeted_context set_order query fields user_context []
    = (Ok b, log)
    /\ AiAgentNew4.prompts_of log = [].
Proof.
  unfold AiAgentNew4.retrieve_targeted_context, AiAgentNew4.retrieve_body.
  unfold_eff. simpl.
  destruct (Py.truthy (AiAgentNew4.field_types_str set_order fields));
    destruct_queries query;
    (eexists; eexists; split; [reflexivity|]); reflexivity.
Qed.

Section RequestTabs.
Context (templates : Templates) (set_order : list string -> list string)
  (query : QueryOracle) (generator : AiAgentNew4.Prompt -> Res string)
  (json_loads : string -> Res Json).

(** With at least one field the generator is called exactly once, with
    the prompt assembled from the fields, the context and the retrieved
    bundle. *)
Lemma generate4_prompts (f : FieldSpec) (fields : list FieldSpec)
    (user_context : string) :
  exists rag_context,
    AiAgentNew4.prompts_of
      (snd (AiAgentNew4.generate_sling_model_with_rag templates set_order query
              generator json_loads (f :: fields) user_context []))
    = [AiAgentNew4.full_prompt templates (f :: fields) user_context rag_context].
Proof.
  destruct (retrieve4_prompts set_order query (f :: fields) user_context)
    as (b & log & Hr & Hlog).
  exists b. unfold AiAgentNew4.generate_sling_model_with_rag.
  unfold mbind, Eff_bind, Eff.bind. rewrite Hr.
  unfold Eff.try_then, Eff.call.
  assert (AiAgentNew4.prompts_of
            (log ++ [EvGenerate (AiAgentNew4.full_prompt templates (f :: fields)
                                   user_context b)])
          = [AiAgentNew4.full_prompt templates (f :: fields) user_context b])
    as Hp.
  { unfold AiAgentNew4.prompts_of in *. rewrite omap_app, Hlog. reflexivity. }
  destruct (generator _) as [ai_output|e].
  - unfold_eff.
    destruct (json_loads ai_output) as [parsed|e].
    + destruct (AiAgentNew4.postprocess parsed) as [outputs|e]; [exact Hp|].
      unfold AiAgentNew4.generation_handler.
      destruct (exc_is_json_decode_error e); exact Hp.
    + unfold AiAgentNew4.generation_handler.
      destruct (exc_is_json_decode_error e); exact Hp.
  - unfold AiAgentNew4.generation_handler, Eff.raise, mret, Eff_ret, Eff.ret.
    destruct (exc_is_json_decode_error e); exact Hp.
Qed.

(** C3 (as amended): the request sent to the generator carries the list
    of fields as it was given, every field once, and tab instructions
    that are computed from the user context alone: none when the context
    is empty or mentions no tab keyword, and otherwise the detected tab
    names, which are pairwise distinct. The program assigns no field to
    any tab and builds no default tab: the placement of the fields, and
    the single Properties tab when no tab is asked for, are left to the
    generator by the fixed text of the prompt. *)
Theorem request_tabs_from_context_only (f : FieldSpec) (fields : list FieldSpec)
    (user_context : string) :
  exists prompt,
    AiAgentNew4.prompts_of
      (snd (AiAgentNew4.generate_sling_model_with_rag templates set_order query
              generator json_loads (f :: fields) user_context []))
    = [prompt]
    /\ AiAgentNew4.prompt_fields prompt = f :: fields
    /\ AiAgentNew4.prompt_tab_instructions prompt
       = AiAgentNew4.tab_instructions user_context
    /\ (user_context = ""
        \/ AiAgentNew4.has_tab_mention (Py.lower user_context) = false ->
        AiAgentNew4.prompt_tab_instructions prompt = AiAgentNew4.NoTabInstructions
        /\ AiAgentNew4.tabs_of (AiAgentNew4.prompt_tab_instructions prompt) = [])
    /\ (user_context <> ""
        /\ AiAgentNew4.has_tab_mention (Py.lower user_context) = true ->
        AiAgentNew4.prompt_tab_instructions prompt
        = AiAgentNew4.TabOrganizationDetected
            (AiAgentNew4.detected_tabs (Py.lower user_context)))
    /\ NoDup (AiAgentNew4.tabs_of (AiAgentNew4.prompt_tab_instructions prompt)).
Proof.
  destruct (generate4_prompts f fields user_context) as [rag_context Hp].
  eexists. split; [exact Hp|].
  split; [apply (fields_list_id (f :: fields))|]. split; [reflexivity|].
  cbn [AiAgentNew4.prompt_tab_instructions AiAgentNew4.full_prompt].
  unfold AiAgentNew4.tab_instructions.
  split; [|split].
  - intros [-> | Hno]; [split; reflexivity|].
    rewrite Hno. destruct (Py.truthy user_context); split; reflexivity.
  - intros [Hne Hyes]. apply truthy_true in Hne. now rewrite Hne, Hyes.
  - destruct (Py.truthy user_context); [|constructor].
    destruct (AiAgentNew4.has_tab_mention (Py.lower user_context));
      [|constructor].
    simpl. unfold AiAgentNew4.detected_tabs.
    rewrite fromkeys_first_occurrences. apply NoDup_first_occurrences.
Qed.

End RequestTabs.

(** C3, counterexample: for the one field [title] and an empty context,
    so with no tab directive, the request carries no tab at all, and not
    one default tab that holds the field. *)
Lemma no_default_tab_assignment :
  let log :=
    snd (AiAgentNew4.generate_sling_model_with_rag Examples.no_templates
           (fun l => l) Examples.one_document (fun _ => Ok "{}")
           (fun _ => Ok (JObject ∅)) [Examples.title_field] "" []) in
  ~ (forall prompt, prompt ∈ AiAgentNew4.prompts_of log ->
       exists tab,
         AiAgentNew4.tabs_of (AiAgentNew4.prompt_tab_instructions prompt) = [tab]).
Proof.
  intros log H.
  destruct (H (AiAgentNew4.full_prompt Examples.no_templates
                 [Examples.title_field] ""
                 (AiAgentNew4.mkBundle "doc" "doc" "doc" "doc"))) as [tab Htab].
  - vm_compute. left.
  - discriminate Htab.
Qed.

(** ** Multifield children *)

Section MultifieldFacts.

Import AiAgentNew2.


Lemma keys_dict_set {V} (d : list (string * V)) (key : string) (value : V)
    (k : string) :
  k ∈ map fst (dict_set d key value) <-> k = key \/ k ∈ map fst d.
Proof.
  induction d as [|[k0 v0] d IH]; simpl.
  - rewrite list_elem_of_singleton, elem_of_nil. tauto.
  - destruct (bool_decide_reflect (k0 = key)) as [->|Hne]; simpl.
    + rewrite !elem_of_cons. tauto.
    + rewrite !elem_of_cons, IH. tauto.
Qed.


Lemma multifield_loop_keys (info : list (string * MultifieldInfo))
    (fields : list FieldSpec) (k : string) :
  k ∈ map fst (multifield_loop info fields) <->
  k ∈ map fst info
  \/ exists f, f ∈ fields /\ f_type f = "Multifield" /\ f_name f = k.
Proof.
  unfold multifield_loop.
  revert info. induction fields as [|f fields IH]; intros info; simpl.
  - split; [now left|]. intros [H | (f & Hf & _)]; [exact H|].
    now apply elem_of_nil in Hf.
  - rewrite IH. destruct (bool_decide_reflect (f_type f = "Multifield")) as [Ht|Ht].
    + rewrite keys_dict_set. split.
      * intros [[-> | H] | (g & Hg & Hgt & Hgn)].
        -- right. exists f. split; [now left | now split].
        -- now left.
        -- right. exists g. split; [now right | now split].
      * intros [H | (g & Hg & Hgt & Hgn)]; [left; now right|].
        apply elem_of_cons in Hg as [-> | Hg].
        -- left. left. now symmetry.
        -- right. exists g. now repeat split.
    + split.
      * intros [H | (g & Hg & Hgt & Hgn)]; [now left|].
        right. exists g. split; [now right | now split].
      * intros [H | (g & Hg & Hgt & Hgn)]; [now left|].
        apply elem_of_cons in Hg as [-> | Hg]; [contradiction|].
        right. exists g. now repeat split.
Qed.


End MultifieldFacts.


(** The fields [text] and [items] with a context that asks for a Data
    tab: the request carries the one detected name and both fields. *)
Lemma request_tabs_from_context_only_witness :
  let user_context :=
    "add text and number field to multifield, put items in separate Data tab" in
  exists prompt,
    AiAgentNew4.prompts_of
      (snd (AiAgentNew4.generate_sling_model_with_rag Examples.no_templates
              (fun l => l) Examples.one_document (fun _ => Ok "{}")
              (fun _ => Ok (JObject ∅))
              [Examples.text_field; Examples.items_field] user_context []))
    = [prompt]
    /\ AiAgentNew4.prompt_fields prompt = [Examples.text_field; Examples.items_field]
    /\ AiAgentNew4.tabs_of (AiAgentNew4.prompt_tab_instructions prompt)
       = ["Separate Data"].
Proof.
  intros user_context.
  destruct (request_tabs_from_context_only Examples.no_templates (fun l => l)
              Examples.one_document (fun _ => Ok "{}") (fun _ => Ok (JObject ∅))
              Examples.text_field [Examples.items_field] user_context)
    as (prompt & Hp & Hf & Ht & _).
  exists prompt. split; [exact Hp|]. split; [exact Hf|].
  rewrite Ht. vm_compute. reflexivity.
Defined.

(** A context with the keyword [settings tab]. *)
Lemma detected_tabs_are_titles_witness :
  AiAgentNew4.tab_instructions "put the fields in user settings tab"
  = AiAgentNew4.TabOrganizationDetected
      (AiAgentNew4.detected_tabs (Py.lower "put the fields in user settings tab"))
  /\ AiAgentNew4.detected_tabs (Py.lower "put the fields in user settings tab")
     = ["User Settings"].
Proof.
  split; [|vm_compute; reflexivity].
  apply (proj1 (detected_tabs_are_titles "put the fields in user settings tab")).
  - discriminate.
  - vm_compute. reflexivity.
Defined.

(** * Further properties *)

(** ** Chunk ids and the contents of a new index *)

Lemma string_of_uint_digits (d : Decimal.uint) :
  Forall (fun c => c <> "_"%char) (Py.chars (NilEmpty.string_of_uint d)).
Proof.
  induction d; simpl; constructor; try assumption; discriminate.
Qed.

Lemma str_of_nat_inj (i j : nat) : Py.str_of_nat i = Py.str_of_nat j -> i = j.
Proof.
  unfold Py.str_of_nat. intros H.
  apply (f_equal NilEmpty.uint_of_string) in H.
  rewrite !NilEmpty.usu in H. injection H as H.
  apply (f_equal Nat.of_uint) in H.
  now rewrite !DecimalNat.Unsigned.of_to in H.
Qed.

(** Two texts that end with an underscore and digits are equal only if
    the parts before the last underscore and the digits are. *)
Lemma app_underscore_inj (a b d1 d2 : list ascii) :
  Forall (fun c => c <> "_"%char) d1 ->
  Forall (fun c => c <> "_"%char) d2 ->
  a ++ "_"%char :: d1 = b ++ "_"%char :: d2 -> a = b /\ d1 = d2.
Proof.
  intros H1 H2. revert b. induction a as [|x a IH]; intros [|y b]; simpl.
  - intros [= ->]. now split.
  - intros [= <- ->]. apply Forall_app in H1 as [_ H1].
    apply Forall_cons in H1 as [H1 _]. now contradiction H1.
  - intros [= -> <-]. apply Forall_app in H2 as [_ H2].
    apply Forall_cons in H2 as [H2 _]. now contradiction H2.
  - intros [= -> H]. destruct (IH b H) as [-> ->]. now split.
Qed.

Lemma chunk_id_eq (name1 name2 : string) (i j : nat) :
  Indexer.chunk_id name1 i = Indexer.chunk_id name2 j <->
  name1 = name2 /\ i = j.
Proof.
  split; [|now intros [-> ->]].
  unfold Indexer.chunk_id. intros H.
  apply (f_equal Py.chars) in H. rewrite !chars_append in H. simpl in H.
  apply app_underscore_inj in H as [Hn Hi];
    try (unfold Py.str_of_nat; apply string_of_uint_digits).
  split; [now apply chars_inj | now apply str_of_nat_inj, chars_inj].
Qed.

(** X1: the id of a chunk determines its source name and its index: two
    chunks have the same id only if they are the same chunk of the same
    source. *)
Theorem chunk_id_inj (name1 name2 : string) (i j : nat) :
  Indexer.chunk_id name1 i = Indexer.chunk_id name2 j <->
  name1 = name2 /\ i = j.
Proof. apply chunk_id_eq. Qed.

Lemma add_fresh (c : Collection.t) (document source id : string) :
  id ∉ map entry_id c ->
  Collection.add c document source id = c ++ [mkEntry id document source].
Proof.
  intros H. unfold Collection.add, Py.mem.
  now rewrite bool_decide_eq_false_2.
Qed.

(** The inner loop on chunks numbered from [k], when no id of this
    source from [k] on is in the collection yet. *)
Lemma add_chunks_from (name : string) (chunks : list string) (k : nat)
    (c : Collection.t) :
  (forall j, k <= j -> Indexer.chunk_id name j ∉ map entry_id c) ->
  foldl (fun c ic => Collection.add c (snd ic) name
                       (Indexer.chunk_id name (fst ic)))
        c (zip (seq k (length chunks)) chunks)
  = c ++ map (fun ic => mkEntry (Indexer.chunk_id name (fst ic)) (snd ic) name)
             (zip (seq k (length chunks)) chunks).
Proof.
  revert k c. induction chunks as [|chunk chunks IH]; intros k c Hfresh; simpl.
  - now rewrite app_nil_r.
  - rewrite add_fresh by (apply Hfresh; lia).
    rewrite IH.
    + now rewrite <- app_assoc.
    + intros j Hj. rewrite map_app. simpl.
      rewrite elem_of_app, list_elem_of_singleton.
      intros [Hin | Heq].
      * apply (Hfresh j); [lia | exact Hin].
      * apply chunk_id_eq in Heq as [_ ->]. lia.
Qed.

Lemma entries_of_chunks_source (name : string) (chunks : list string) (e : Entry) :
  e ∈ IndexerReference.entries_of_chunks name chunks ->
  exists i, entry_id e = Indexer.chunk_id name i /\ entry_source e = name.
Proof.
  unfold IndexerReference.entries_of_chunks. intros H.
  apply list_elem_of_fmap in H as ([i chunk] & -> & _). now exists i.
Qed.

(** The loop over the files, when the ids in the collection come from
    sources that are not in the files still to be read. *)
Lemma index_files_from (fs : FileSystem) (files_map : list (string * string))
    (c : Collection.t) :
  NoDup (map fst files_map) ->
  (forall e, e ∈ c ->
     exists name i, entry_id e = Indexer.chunk_id name i
                    /\ name ∉ map fst files_map) ->
  foldl (Indexer.index_file fs) c files_map
  = c ++ IndexerReference.entries_of_files files_map fs.
Proof.
  revert c. induction files_map as [|[name path] files_map IH];
    intros c Hnd Hc; simpl.
  - now rewrite app_nil_r.
  - apply NoDup_cons in Hnd as [Hname Hnd].
    unfold IndexerReference.entries_of_files in *. simpl.
    assert (Indexer.index_file fs c (name, path)
            = c ++ IndexerReference.entries_of_file fs (name, path)) as Hstep.
    { unfold Indexer.index_file, IndexerReference.entries_of_file. simpl.
      destruct (fs !! path) as [text|]; [|now rewrite app_nil_r].
      unfold Indexer.add_chunks, Indexer.enumerate. apply add_chunks_from.
      intros j _ Hin. apply list_elem_of_fmap in Hin as (e & Heq & He).
      destruct (Hc e He) as (name' & i & Hid & Hnot).
      rewrite Hid in Heq. apply chunk_id_eq in Heq as [-> _].
      apply Hnot. simpl. left. }
    rewrite Hstep, IH.
    + now rewrite <- app_assoc.
    + exact Hnd.
    + intros e He. apply elem_of_app in He as [He | He].
      * destruct (Hc e He) as (name' & i & Hid & Hnot).
        exists name', i. split; [exact Hid|].
        intros Hin. apply Hnot. simpl. now right.
      * unfold IndexerReference.entries_of_file in He. simpl in He.
        destruct (fs !! path) as [text|]; [|now apply elem_of_nil in He].
        apply entries_of_chunks_source in He as (i & Hid & _).
        now exists name, i.
Qed.

Lemma length_entries_of_file (fs : FileSystem) (entry : string * string) :
  length (IndexerReference.entries_of_file fs entry)
  = IndexerReference.chunks_of_file fs entry.
Proof.
  unfold IndexerReference.entries_of_file, IndexerReference.chunks_of_file.
  destruct (fs !! snd entry) as [text|]; [|reflexivity].
  unfold IndexerReference.entries_of_chunks, Indexer.enumerate.
  rewrite length_map, length_zip, length_seq, Nat.min_id.
  apply length_chunk_text.
Qed.

(** X2: when the names of the files map are pairwise distinct, building the
    index in an empty store stores, for the files in the order of the
    map, the chunks of each file that exists, chunk [i] of source [name]
    under the id [name_i] with [name] as its source; a missing file adds
    nothing and does not stop the build; and [count()] is then the sum of
    [ceil(len / 700)] over the files that exist. *)
Theorem build_from_empty_store (files_map : list (string * string))
    (fs : FileSystem) :
  NoDup (map fst files_map) ->
  Indexer.build_or_load_chroma files_map fs []
    = IndexerReference.entries_of_files files_map fs
  /\ Collection.count (Indexer.build_or_load_chroma files_map fs [])
    = sum_list (map (IndexerReference.chunks_of_file fs) files_map).
Proof.
  intros Hnd.
  assert (Indexer.build_or_load_chroma files_map fs []
          = IndexerReference.entries_of_files files_map fs) as Hb.
  { unfold Indexer.build_or_load_chroma. simpl.
    rewrite index_files_from; [reflexivity | exact Hnd |].
    intros e He. now apply elem_of_nil in He. }
  split; [exact Hb|]. rewrite Hb. unfold Collection.count.
  unfold IndexerReference.entries_of_files. clear Hb Hnd.
  induction files_map as [|entry files_map IH]; [reflexivity|].
  simpl. now rewrite length_app, length_entries_of_file, IH.
Qed.

(** The files map of [ai_agent.py] with one file of 1450 characters and
    four missing files: three records, of the one source. *)
Lemma build_from_empty_store_witness :
  map (fun e => (entry_id e, entry_source e, Py.len (entry_document e)))
      (AiAgent.build_or_load_chroma Examples.one_file [])
  = [ ("dialog_template_0", "dialog_template", 800);
      ("dialog_template_1", "dialog_template", 750);
      ("dialog_template_2", "dialog_template", 50) ].
Proof.
  unfold AiAgent.build_or_load_chroma.
  rewrite (proj1 (build_from_empty_store AiAgent.files_map Examples.one_file
                    ltac:(compute_done))).
  vm_compute. reflexivity.
Defined.

(** ** The overlap of consecutive chunks *)

Ltac quot_rem_700 x :=
  let q := fresh "q" in
  let r := fresh "r" in
  pose proof (Nat.div_mod_eq x 700);
  pose proof (Nat.mod_upper_bound x 700 ltac:(lia));
  generalize dependent (x / 700); generalize dependent (x mod 700);
  intros r ? q; intros.

Lemma take_min_length {A} (n : nat) (l : list A) :
  take n l = take (Nat.min n (length l)) l.
Proof.
  destruct (Nat.le_ge_cases n (length l)) as [H|H].
  - now rewrite Nat.min_l.
  - rewrite Nat.min_r by exact H. now rewrite !take_ge.
Qed.

(** X3: what a chunk holds after its first 700 characters is the start of
    the next chunk: consecutive chunks overlap, by exactly 100 characters
    when the first of the two is a full chunk. *)
Theorem consecutive_chunks_overlap (text c1 c2 : string) (i : nat) :
  Indexer.chunk_text text !! i = Some c1 ->
  Indexer.chunk_text text !! (i + 1) = Some c2 ->
  drop 700 (Py.chars c1) = take (Py.len c1 - 700) (Py.chars c2)
  /\ 0 < Py.len c1 - 700 <= 100
  /\ (Py.len c1 = 800 -> Py.slice c1 700 800 = Py.slice c2 0 100).
Proof.
  intros H1 H2.
  apply chunk_text_inv in H1 as [Hi1 ->]. apply chunk_text_inv in H2 as [Hi2 ->].
  assert (drop 700 (Py.chars (Py.slice text (i * 700) (i * 700 + 800)))
          = take (Py.len (Py.slice text (i * 700) (i * 700 + 800)) - 700)
              (Py.chars (Py.slice text ((i + 1) * 700) ((i + 1) * 700 + 800))))
    as Hov.
  { rewrite len_slice. unfold Py.slice. rewrite !chars_str.
    replace (i * 700 + 800 - i * 700) with 800 by lia.
    replace ((i + 1) * 700 + 800 - (i + 1) * 700) with 800 by lia.
    rewrite skipn_firstn_comm, drop_drop, take_take.
    replace (i * 700 + 700) with ((i + 1) * 700) by lia.
    rewrite (take_min_length (800 - 700)), (take_min_length (_ `min` 800)).
    f_equal. rewrite length_drop, len_chars. lia. }
  split; [exact Hov|]. split.
  - rewrite len_slice. quot_rem_700 (Py.len text + 699). lia.
  - intros Hfull. unfold Py.slice at 1 3. f_equal.
    rewrite Nat.sub_0_r, drop_0, Hov, Hfull.
    replace (800 - 700) with 100 by lia.
    now rewrite take_take, Nat.min_id.
Qed.

(** The first two chunks of a text of 1450 characters. *)
Lemma consecutive_chunks_overlap_witness :
  Py.slice (Py.slice Examples.text_1450 0 800) 700 800
  = Py.slice (Py.slice Examples.text_1450 700 1500) 0 100.
Proof.
  apply (consecutive_chunks_overlap Examples.text_1450 _ _ 0);
    vm_compute; reflexivity.
Defined.

(** ** Retrieval is all or nothing *)

Ltac step_query query :=
  match goal with
  | |- context [match query ?t ?k with _ => _ end] =>
      let E := fresh "E" in
      destruct (query t k) as [[|? ?]|?] eqn:E; simpl;
      unfold RetrievalReference.answered, RetrievalReference.context_of;
      simpl; rewrite ?E; simpl
  end.

Ltac solve_all_or_nothing :=
  split; intros; try discriminate; try (split; reflexivity); try reflexivity.

Section AllOrNothing.
Context {P : Type} (set_order : list string -> list string)
  (query : QueryOracle).

Import RetrievalReference.

(** X4: in [ai_agent.py] the queries are made in a fixed order (dialog,
    Sling, HTL, fields with ten results each, then JavaScript with five
    when needed). If one of the queries made is not answered, the whole
    bundle is empty, whatever the earlier queries returned; if all are
    answered, each entry is the join of the documents of its query. *)
Theorem retrieve_all_or_nothing (fields : list FieldSpec) (user_context : string) :
  let result :=
    AiAgent.retrieve_targeted_context (P := P) query fields user_context [] in
  (forallb (answered query) (queries_of (snd result)) = false ->
     fst result = Ok AiAgent.empty_bundle)
  /\ (forallb (answered query) (queries_of (snd result)) = true ->
      queries_of (snd result)
        = [ (AiAgent.dialog_query fields, 10); (AiAgent.sling_query fields, 10);
            (AiAgent.htl_query fields, 10); (AiAgent.fields_query fields, 10) ]
          ++ (if AiAgent.needs_js fields user_context
              then [(AiAgent.js_query fields, 5)] else [])
      /\ fst result
        = Ok (AiAgent.mkBundle
                (context_of query (AiAgent.dialog_query fields) 10)
                (context_of query (AiAgent.sling_query fields) 10)
                (context_of query (AiAgent.htl_query fields) 10)
                (if AiAgent.needs_js fields user_context
                 then context_of query (AiAgent.js_query fields) 5 else "")
                (context_of query (AiAgent.fields_query fields) 10))).
Proof.
  unfold AiAgent.retrieve_targeted_context, AiAgent.retrieve_body,
    AiAgent.TOP_K.
  unfold_eff. simpl.
  destruct (AiAgent.needs_js fields user_context);
    repeat step_query query; solve_all_or_nothing.
Qed.

(** X5: in [ai_agent_new.py] the queries are the dialog, Sling and HTL
    ones (5, 8 and 5 results), the fields one (8 results) when the text
    of field types is not empty, and the JavaScript one (3 results) on a
    validation keyword or a Multifield. If one of the queries made is not
    answered, the whole bundle is empty; if all are answered, each entry
    is the join of the documents of its query, and the entry of a query
    that was not made is empty. *)
Theorem retrieve_new_all_or_nothing (fields : list FieldSpec)
    (user_context : string) :
  let result :=
    AiAgentNew.retrieve_targeted_context (P := P) set_order query fields
      user_context [] in
  let types := AiAgentNew.field_types_str set_order fields in
  let with_fields := Py.truthy types in
  let with_js :=
    AiAgentNew.needs_validation user_context || AiAgentNew.has_multifield fields in
  (forallb (answered query) (queries_of (snd result)) = false ->
     fst result = Ok AiAgentNew.empty_bundle)
  /\ (forallb (answered query) (queries_of (snd result)) = true ->
      queries_of (snd result)
        = [ (AiAgentNew.dialog_query, 5);
            (AiAgentNew.sling_query (AiAgentNew.has_multifield fields), 8);
            (AiAgentNew.htl_query, 5) ]
          ++ (if with_fields then [(AiAgentNew.fields_query types, 8)] else [])
          ++ (if with_js then [(AiAgentNew.js_query, 3)] else [])
      /\ fst result
        = Ok (AiAgentNew.mkBundle
                (context_of query AiAgentNew.dialog_query 5)
                (context_of query
                   (AiAgentNew.sling_query (AiAgentNew.has_multifield fields)) 8)
                (context_of query AiAgentNew.htl_query 5)
                (if with_js then context_of query AiAgentNew.js_query 3 else "")
                (if with_fields
                 then context_of query (AiAgentNew.fields_query types) 8
                 else ""))).
Proof.
  intros result types with_fields with_js. subst result with_fields with_js.
  unfold AiAgentNew.retrieve_targeted_context, AiAgentNew.retrieve_body.
  fold types. unfold_eff. simpl.
  destruct (Py.truthy types);
    destruct (AiAgentNew.needs_validation user_context
              || AiAgentNew.has_multifield fields);
    repeat step_query query; solve_all_or_nothing.
Qed.

End AllOrNothing.

(** With a Multifield the JavaScript query is made; when it is the only
    query that fails, the four answers before it are thrown away. *)
Lemma retrieve_all_or_nothing_witness :
  AiAgent.retrieve_targeted_context (P := unit) MoreExamples.fails_on_javascript
    [Examples.items_field] "" []
  = (Ok AiAgent.empty_bundle,
     [ EvQuery (AiAgent.dialog_query [Examples.items_field]) 10;
       EvQuery (AiAgent.sling_query [Examples.items_field]) 10;
       EvQuery (AiAgent.htl_query [Examples.items_field]) 10;
       EvQuery (AiAgent.fields_query [Examples.items_field]) 10;
       EvQuery (AiAgent.js_query [Examples.items_field]) 5 ]).
Proof.
  pose proof (proj1 (retrieve_all_or_nothing (P := unit)
                       MoreExamples.fails_on_javascript
                       [Examples.items_field] "")) as H.
  cbv zeta in H.
  destruct (AiAgent.retrieve_targeted_context MoreExamples.fails_on_javascript
              [Examples.items_field] "" []) as [r log] eqn:E.
  assert (log = [ EvQuery (AiAgent.dialog_query [Examples.items_field]) 10;
       EvQuery (AiAgent.sling_query [Examples.items_field]) 10;
       EvQuery (AiAgent.htl_query [Examples.items_field]) 10;
       EvQuery (AiAgent.fields_query [Examples.items_field]) 10;
       EvQuery (AiAgent.js_query [Examples.items_field]) 5 ]) as ->.
  { vm_compute in E. injection E as _ <-. vm_compute. reflexivity. }
  simpl in H. rewrite H; [reflexivity|]. vm_compute. reflexivity.
Defined.

(** ** Generation: calls, failures and exceptions *)

Lemma strip_chars_all_space (l : list ascii) :
  Py.strip_chars l = [] <-> Forall (fun c => Py.is_space c = true) l.
Proof.
  assert (forall l, Py.lstrip_chars l = [] <->
                    Forall (fun c => Py.is_space c = true) l) as Hl.
  { clear l. induction l as [|c l IH]; simpl.
    - split; [constructor | reflexivity].
    - destruct (Py.is_space c) eqn:Hc.
      + rewrite IH. split; [now constructor|]. intros H.
        now apply Forall_cons in H as [_ H].
      + split; [discriminate|]. intros H.
        apply Forall_cons in H as [H _]. congruence. }
  unfold Py.strip_chars. split.
  - intros H. apply (f_equal (@rev ascii)) in H. rewrite rev_involutive in H.
    simpl in H. apply Hl in H. apply Forall_rev in H.
    rewrite rev_involutive in H.
    destruct (Py.lstrip_chars l) as [|c l'] eqn:E; [now apply Hl|].
    apply lstrip_chars_head in E. apply Forall_cons in H as [H _]. congruence.
  - intros H. apply Hl in H. rewrite H. reflexivity.
Qed.

(** An entry of the parsed output counts as empty exactly when it is
    absent or is a string of whitespace only. *)
Lemma get_stripped_empty (members : gmap string JValue) (key : string) :
  get_stripped (JObject members) key = Ok "" <->
  members !! key = None
  \/ exists s, members !! key = Some (JStr s)
               /\ Forall (fun c => Py.is_space c = true) (Py.chars s).
Proof.
  unfold get_stripped. destruct (members !! key) as [[s|]|].
  - split.
    + intros [= H]. right. exists s. split; [reflexivity|].
      apply strip_chars_all_space. unfold Py.strip in H.
      apply (f_equal Py.chars) in H. now rewrite chars_str in H.
    + intros [H | (s' & [= <-] & H)]; [discriminate|].
      apply strip_chars_all_space in H. unfold Py.strip. now rewrite H.
  - split; [discriminate|]. intros [H | (s' & H & _)]; discriminate.
  - split; [now left | reflexivity].
Qed.

Section GenerationEdges.
Context (templates : Templates) (query : QueryOracle)
  (generator : AiAgent.Prompt -> Res string) (json_loads : string -> Res Json).

Lemma agent_fields_list_id (fields : list FieldSpec) :
  map (fun f => mkField (f_type f) (f_name f) (f_label f)) fields = fields.
Proof. apply fields_list_id. Qed.

(** The shape of a generation with at least one field: the retrieval,
    then the generator. *)
Lemma generate_unfold (f : FieldSpec) (fields : list FieldSpec)
    (user_context : string) :
  exists rag_context log,
    AiAgent.retrieve_targeted_context (P := AiAgent.Prompt) query (f :: fields)
      user_context [] = (Ok rag_context, log)
    /\ let prompt := AiAgent.full_prompt templates (f :: fields) user_context
                       rag_context in
       AiAgent.generate_sling_model_with_rag templates query generator json_loads
         (f :: fields) user_context []
       = Eff.try_then
           (Eff.call (EvGenerate prompt) (generator prompt))
           (fun ai_output =>
              Eff.try_except
                (parsed ← Eff.lift (json_loads ai_output);
                 Eff.lift (AiAgent.postprocess parsed))
                (AiAgent.generation_handler (Some ai_output)))
           (AiAgent.generation_handler None) log.
Proof.
  destruct (retrieve_total (P := AiAgent.Prompt) (fun l => l) query (f :: fields)
              user_context []) as [(b & log & Hr) _].
  exists b, log. split; [exact Hr|]. cbv zeta.
  unfold AiAgent.generate_sling_model_with_rag.
  unfold mbind at 1. unfold Eff_bind, Eff.bind. rewrite Hr.
  now rewrite (agent_fields_list_id (f :: fields)).
Qed.

(** The log of a generation with at least one field. *)
Lemma generate_log (f : FieldSpec) (fields : list FieldSpec)
    (user_context : string) :
  exists rag_context log,
    AiAgent.retrieve_targeted_context (P := AiAgent.Prompt) query (f :: fields)
      user_context [] = (Ok rag_context, log)
    /\ snd (AiAgent.generate_sling_model_with_rag templates query generator
              json_loads (f :: fields) user_context [])
       = log ++ [EvGenerate (AiAgent.full_prompt templates (f :: fields)
                               user_context rag_context)]
    /\ AiAgent.prompt_fields
         (AiAgent.full_prompt templates (f :: fields) user_context rag_context)
       = f :: fields.
Proof.
  destruct (generate_unfold f fields user_context) as (b & log & Hr & Hg).
  exists b, log. split; [exact Hr|]. split; [|reflexivity].
  cbv zeta in Hg. rewrite Hg. unfold_eff.
  destruct (generator _) as [ai_output|e]; simpl.
  - destruct (json_loads ai_output) as [parsed|e]; simpl.
    + destruct (AiAgent.postprocess parsed) as [outputs|e]; [reflexivity|].
      unfold AiAgent.generation_handler.
      destruct (exc_is_json_decode_error e); reflexivity.
    + unfold AiAgent.generation_handler.
      destruct (exc_is_json_decode_error e); reflexivity.
  - unfold AiAgent.generation_handler, Eff.raise, mret, Eff_ret, Eff.ret.
    destruct (exc_is_json_decode_error e); reflexivity.
Qed.

(** X6: with at least one field the generator is called exactly once, after
    all the queries of the retrieval, with the prompt made from the
    fields as given, the context and the retrieved bundle; no failure
    leads to a second call. *)
Theorem generator_called_once (f : FieldSpec) (fields : list FieldSpec)
    (user_context : string) :
  exists rag_context log,
    AiAgent.retrieve_targeted_context (P := AiAgent.Prompt) query (f :: fields)
      user_context [] = (Ok rag_context, log)
    /\ snd (AiAgent.generate_sling_model_with_rag templates query generator
              json_loads (f :: fields) user_context [])
       = log ++ [EvGenerate (AiAgent.full_prompt templates (f :: fields)
                               user_context rag_context)]
    /\ AiAgent.prompt_fields
         (AiAgent.full_prompt templates (f :: fields) user_context rag_context)
       = f :: fields.
Proof. apply generate_log. Qed.

(** X7: generation returns normally when the generator does not raise a
    [JSONDecodeError]: every other failure, of the generator, of the
    parser or of the checks, ends in a message. When the call of the
    generator itself raises a [JSONDecodeError], the handler reads
    [ai_output] before it is assigned, and generation raises. *)
Theorem generation_exception_boundary (f : FieldSpec) (fields : list FieldSpec)
    (user_context : string) :
  ((forall p e, generator p = Raise e -> exc_is_json_decode_error e = false) ->
   exists outputs,
     fst (AiAgent.generate_sling_model_with_rag templates query generator
            json_loads (f :: fields) user_context []) = Ok outputs)
  /\ ((forall p, exists e, generator p = Raise e
                           /\ exc_is_json_decode_error e = true) ->
      fst (AiAgent.generate_sling_model_with_rag templates query generator
             json_loads (f :: fields) user_context [])
      = Raise unbound_local_error).
Proof.
  destruct (generate_unfold f fields user_context) as (b & log & Hr & Hg).
  cbv zeta in Hg. rewrite Hg. clear Hg. unfold_eff. split.
  - intros Hgen.
    destruct (generator _) as [ai_output|e] eqn:Eg; simpl.
    + destruct (json_loads ai_output) as [parsed|e]; simpl.
      * destruct (AiAgent.postprocess parsed) as [outputs|e]; [eauto|].
        unfold AiAgent.generation_handler.
        destruct (exc_is_json_decode_error e); simpl; eauto.
      * unfold AiAgent.generation_handler.
        destruct (exc_is_json_decode_error e); simpl; eauto.
    + unfold AiAgent.generation_handler. rewrite (Hgen _ _ Eg). simpl. eauto.
  - intros Hgen.
    destruct (Hgen (AiAgent.full_prompt templates (f :: fields) user_context b))
      as (e & -> & He).
    unfold AiAgent.generation_handler. now rewrite He.
Qed.

(** X8: when the answer of the generator does not parse, the message quotes
    [str(e)] and the first 500 characters of the answer, and no more; the
    other three outputs are empty. *)
Theorem json_error_quotes_raw_output (f : FieldSpec) (fields : list FieldSpec)
    (user_context ai_output : string) (e : PyExc) :
  (forall p, generator p = Ok ai_output) ->
  json_loads ai_output = Raise e ->
  exc_is_json_decode_error e = true ->
  fst (AiAgent.generate_sling_model_with_rag templates query generator
         json_loads (f :: fields) user_context [])
  = Ok ("❌ JSON parsing error: " +:+ exc_str e +:+ Py.nl +:+ Py.nl
        +:+ "Raw output:" +:+ Py.nl +:+ Py.slice ai_output 0 500, "", "", "")
  /\ Py.len (Py.slice ai_output 0 500) = Nat.min 500 (Py.len ai_output)
  /\ (Py.len ai_output <= 500 -> Py.slice ai_output 0 500 = ai_output).
Proof.
  intros Hgen Hjson He.
  destruct (generate_unfold f fields user_context) as (b & log & Hr & Hg).
  cbv zeta in Hg. rewrite Hg. clear Hg. unfold_eff.
  rewrite Hgen, Hjson. unfold AiAgent.generation_handler. rewrite He.
  split; [reflexivity|]. split.
  - rewrite len_slice. lia.
  - intros Hlen. unfold Py.slice. rewrite drop_0, take_ge, str_chars;
      [reflexivity | rewrite len_chars; lia].
Qed.

(** X9: when one of the four entries of the parsed answer is present but is
    not a string, or the answer is not an object, every artifact is
    dropped, the valid ones too: the outputs are a message and three
    empty strings. *)
Theorem non_string_entry_drops_all (f : FieldSpec) (fields : list FieldSpec)
    (user_context ai_output : string) (parsed : Json) :
  (forall p, generator p = Ok ai_output) ->
  json_loads ai_output = Ok parsed ->
  (parsed = JNotObject
   \/ exists members key,
        parsed = JObject members
        /\ key ∈ ["dialog"; "sling_model"; "htl"; "js_validation"]
        /\ members !! key = Some JOther) ->
  exists message,
    fst (AiAgent.generate_sling_model_with_rag templates query generator
           json_loads (f :: fields) user_context [])
    = Ok (message, "", "", "").
Proof.
  intros Hgen Hjson Hbad.
  destruct (generate_unfold f fields user_context) as (b & log & Hr & Hg).
  cbv zeta in Hg. rewrite Hg. clear Hg. unfold_eff.
  rewrite Hgen, Hjson.
  assert (AiAgent.postprocess parsed = Raise attribute_error) as ->.
  { destruct Hbad as [-> | (members & key & -> & Hkey & Hother)];
      [reflexivity|].
    unfold AiAgent.postprocess, get_stripped.
    repeat (apply elem_of_cons in Hkey as [-> | Hkey];
            [rewrite Hother;
             repeat match goal with
               | |- context [members !! ?k] =>
                   destruct (members !! k) as [[?|]|]
               end; reflexivity|]).
    now apply elem_of_nil in Hkey. }
  unfold AiAgent.generation_handler. simpl. eauto.
Qed.

End GenerationEdges.

Lemma generation_exception_boundary_witness :
  (exists outputs,
     fst (AiAgent.generate_sling_model_with_rag Examples.no_templates
            Examples.one_document (MoreExamples.refuses AiAgent.Prompt)
            MoreExamples.rejects [Examples.title_field] "" []) = Ok outputs)
  /\ fst (AiAgent.generate_sling_model_with_rag Examples.no_templates
            Examples.one_document
            (fun _ => Raise (mkExc true "Expecting value"))
            MoreExamples.rejects [Examples.title_field] "" [])
     = Raise unbound_local_error.
Proof.
  split.
  - apply (proj1 (generation_exception_boundary Examples.no_templates
                    Examples.one_document (MoreExamples.refuses AiAgent.Prompt)
                    MoreExamples.rejects Examples.title_field [] "")).
    intros p e [= <-]. reflexivity.
  - apply (proj2 (generation_exception_boundary Examples.no_templates
                    Examples.one_document
                    (fun _ => Raise (mkExc true "Expecting value"))
                    MoreExamples.rejects Examples.title_field [] "")).
    intros p. eexists. split; reflexivity.
Defined.

Lemma json_error_quotes_raw_output_witness :
  fst (AiAgent.generate_sling_model_with_rag Examples.no_templates
         Examples.one_document (MoreExamples.fixed_answer AiAgent.Prompt)
         MoreExamples.rejects [Examples.title_field] "" [])
  = Ok ("❌ JSON parsing error: Expecting value" +:+ Py.nl +:+ Py.nl
        +:+ "Raw output:" +:+ Py.nl +:+ "{...}", "", "", "").
Proof.
  apply (proj1 (json_error_quotes_raw_output Examples.no_templates
                  Examples.one_document (MoreExamples.fixed_answer AiAgent.Prompt)
                  MoreExamples.rejects Examples.title_field [] "" "{...}"
                  (mkExc true "Expecting value")
                  ltac:(intros; reflexivity) ltac:(reflexivity)
                  ltac:(reflexivity))).
Defined.

(** A [null] in the place of the JavaScript: the dialog, the Sling model
    and the HTL template, all three valid, are not returned. *)
Lemma non_string_entry_drops_all_witness :
  exists message,
    fst (AiAgent.generate_sling_model_with_rag Examples.no_templates
           Examples.one_document (MoreExamples.fixed_answer AiAgent.Prompt)
           MoreExamples.null_javascript [Examples.title_field] "" [])
    = Ok (message, "", "", "").
Proof.
  apply (non_string_entry_drops_all Examples.no_templates Examples.one_document
           (MoreExamples.fixed_answer AiAgent.Prompt) MoreExamples.null_javascript
           Examples.title_field [] "" "{...}"
           (JObject {[ "dialog" := JStr "<jcr:root/>";
                       "sling_model" := JStr "class M {}";
                       "htl" := JStr "<div/>";
                       "js_validation" := JOther ]})
           ltac:(intros; reflexivity) ltac:(reflexivity)).
  right. eexists. exists "js_validation". split; [reflexivity|].
  split; [|vm_compute; reflexivity].
  do 3 right. left.
Defined.

Section BlankArtifacts.
Context (templates : Templates) (query : QueryOracle)
  (generator : AiAgent.Prompt -> Res string) (json_loads : string -> Res Json).

Lemma get_stripped_string (members : gmap string JValue) (key : string) :
  members !! key <> Some JOther ->
  exists s, get_stripped (JObject members) key = Ok s.
Proof.
  unfold get_stripped. destruct (members !! key) as [[s|]|]; eauto.
  intros H. now contradiction H.
Qed.

(** X10: a dialog that is absent from the answer, or is made of whitespace
    only, counts as missing: generation fails with the dialog message and
    returns nothing else, whatever the other entries hold. *)
Theorem blank_dialog_counts_as_missing (f : FieldSpec) (fields : list FieldSpec)
    (user_context ai_output : string) (members : gmap string JValue) :
  (forall p, generator p = Ok ai_output) ->
  json_loads ai_output = Ok (JObject members) ->
  (forall key, members !! key <> Some JOther) ->
  (members !! "dialog" = None
   \/ exists s, members !! "dialog" = Some (JStr s)
                /\ Forall (fun c => Py.is_space c = true) (Py.chars s)) ->
  fst (AiAgent.generate_sling_model_with_rag templates query generator
         json_loads (f :: fields) user_context [])
  = Ok ("❌ Failed to generate dialog", "", "", "").
Proof.
  intros Hgen Hjson Hstr Hblank.
  apply get_stripped_empty in Hblank.
  destruct (get_stripped_string members "sling_model" (Hstr _)) as [s Hs].
  destruct (get_stripped_string members "htl" (Hstr _)) as [h Hh].
  destruct (get_stripped_string members "js_validation" (Hstr _)) as [j Hj].
  destruct (postprocess_cases _ _ _ _ _ Hblank Hs Hh Hj) as (Hpost & _).
  eapply (generate_postprocess templates (fun l => l)); eauto.
Qed.

(** X11: when every query of the vector store raises, generation goes on
    without the knowledge base: after the one failed query the generator
    is called, with a prompt whose five knowledge sections hold the
    fallback sentences, never an empty text. *)
Theorem generation_without_knowledge_base (f : FieldSpec)
    (fields : list FieldSpec) (user_context : string) :
  (forall text k, exists e, query text k = Raise e) ->
  exists prompt,
    snd (AiAgent.generate_sling_model_with_rag templates query generator
           json_loads (f :: fields) user_context [])
    = [EvQuery (AiAgent.dialog_query (f :: fields)) 10; EvGenerate prompt]
    /\ AiAgent.prompt_fields prompt = f :: fields
    /\ AiAgent.prompt_dialog_context prompt
       = "No dialog examples found - use standard Granite UI structure"
    /\ AiAgent.prompt_fields_context prompt = "No field examples found"
    /\ AiAgent.prompt_sling_context prompt = "No sling model examples found"
    /\ AiAgent.prompt_htl_context prompt = "No HTL examples found"
    /\ AiAgent.prompt_js_context prompt
       = "No JS validation examples found - only include if explicitly needed".
Proof.
  intros Hraise.
  destruct (generate_log templates query generator json_loads f fields
              user_context) as (b & log & Hr & Hlog & Hf).
  assert (b = AiAgent.empty_bundle
          /\ log = [EvQuery (AiAgent.dialog_query (f :: fields)) 10]) as [-> ->].
  { revert Hr.
    unfold AiAgent.retrieve_targeted_context, AiAgent.retrieve_body.
    unfold_eff.
    destruct (Hraise (AiAgent.dialog_query (f :: fields)) AiAgent.TOP_K) as [e ->].
    intros [= <- <-]. now split. }
  eexists. split; [exact Hlog|]. split; [exact Hf|]. repeat split.
Qed.

End BlankArtifacts.

Lemma blank_dialog_counts_as_missing_witness :
  fst (AiAgent.generate_sling_model_with_rag Examples.no_templates
         Examples.one_document (MoreExamples.fixed_answer AiAgent.Prompt)
         (fun _ => Ok (JObject {[ "dialog" := JStr "   ";
                                  "sling_model" := JStr "class M {}" ]}))
         [Examples.title_field] "" [])
  = Ok ("❌ Failed to generate dialog", "", "", "").
Proof.
  apply (blank_dialog_counts_as_missing Examples.no_templates
           Examples.one_document (MoreExamples.fixed_answer AiAgent.Prompt)
           (fun _ => Ok (JObject {[ "dialog" := JStr "   ";
                                    "sling_model" := JStr "class M {}" ]}))
           Examples.title_field [] "" "{...}"
           {[ "dialog" := JStr "   "; "sling_model" := JStr "class M {}" ]}
           ltac:(intros; reflexivity) ltac:(reflexivity)).
  - intros key.
    destruct (decide (key = "dialog")) as [->|Hd]; [discriminate|].
    rewrite lookup_insert_ne by congruence.
    destruct (decide (key = "sling_model")) as [->|Hs]; [discriminate|].
    rewrite lookup_singleton_ne by congruence. discriminate.
  - right. exists "   ". split; [reflexivity|]. repeat constructor.
Defined.

Lemma generation_without_knowledge_base_witness :
  exists prompt,
    snd (AiAgent.generate_sling_model_with_rag Examples.no_templates
           Examples.unavailable (MoreExamples.fixed_answer AiAgent.Prompt)
           MoreExamples.rejects [Examples.title_field] "" [])
    = [EvQuery (AiAgent.dialog_query [Examples.title_field]) 10;
       EvGenerate prompt]
    /\ AiAgent.prompt_dialog_context prompt
       = "No dialog examples found - use standard Granite UI structure".
Proof.
  destruct (generation_without_knowledge_base Examples.no_templates
              Examples.unavailable (MoreExamples.fixed_answer AiAgent.Prompt)
              MoreExamples.rejects Examples.title_field [] "")
    as (prompt & Hlog & _ & Hd & _).
  - intros text k. eexists. reflexivity.
  - exists prompt. split; assumption.
Defined.

(** ** A session of adding fields *)

Section SessionFacts.

Import AiAgentSession.

Lemma str_app_assoc (a b c : string) : (a +:+ b) +:+ c = a +:+ (b +:+ c).
Proof.
  induction a as [|x a IH]; [reflexivity|].
  change (String x ((a +:+ b) +:+ c) = String x (a +:+ (b +:+ c))).
  now rewrite IH.
Qed.

Lemma str_app_inv_head (a b c : string) : a +:+ b = a +:+ c -> b = c.
Proof.
  induction a as [|x a IH]; simpl; [trivial|]. intros [= H]. now apply IH.
Qed.

Lemma join_snoc (sep : string) (l : list string) (x : string) :
  l <> [] -> Py.join sep (l ++ [x]) = Py.join sep l +:+ sep +:+ x.
Proof.
  induction l as [|y l IH]; [congruence|]. intros _.
  destruct l as [|z l]; [reflexivity|].
  change (Py.join sep ((y :: z :: l) ++ [x]))
    with (y +:+ sep +:+ Py.join sep ((z :: l) ++ [x])).
  rewrite IH by discriminate.
  change (Py.join sep (y :: z :: l)) with (y +:+ sep +:+ Py.join sep (z :: l)).
  now rewrite !str_app_assoc.
Qed.

(** A list with at least one field is never displayed as the
    placeholder. *)
Lemma displayed_not_placeholder (inputs : list (string * string * string)) :
  inputs <> [] -> displayed inputs <> no_fields_markdown.
Proof.
  destruct inputs as [|x inputs]; [congruence|]. intros _.
  unfold displayed, no_fields_markdown. intros H.
  apply str_app_inv_head in H. discriminate H.
Qed.

Lemma click_add_step (done : list (string * string * string))
    (input : string * string * string) :
  click_add (displayed done, map field_of done) input
  = if accepted input
    then (displayed (done ++ [input]), map field_of (done ++ [input]))
    else (displayed done, map field_of done).
Proof.
  destruct input as [[t n] l]. unfold click_add, accepted, AiAgent.add_field.
  cbn [fst snd].
  destruct (Py.truthy n); cbn [negb orb andb]; [|reflexivity].
  destruct (Py.truthy l); cbn [negb orb andb]; [|reflexivity].
  rewrite map_app. cbn [fst snd]. f_equal.
  destruct done as [|d done].
  - rewrite bool_decide_eq_true_2 by reflexivity. reflexivity.
  - rewrite bool_decide_eq_false_2
      by (apply displayed_not_placeholder; discriminate).
    unfold displayed.
    change ((d :: done) ++ [(t, n, l)]) with (d :: (done ++ [(t, n, l)])).
    cbv iota. rewrite app_comm_cons, map_app.
    change (map entry_line [(t, n, l)]) with [entry_line (t, n, l)].
    rewrite join_snoc by discriminate.
    rewrite !str_app_assoc. reflexivity.
Qed.

Lemma clicks_from (done inputs : list (string * string * string)) :
  foldl click_add (displayed done, map field_of done) inputs
  = (displayed (done ++ filter (fun i => accepted i = true) inputs),
     map field_of (done ++ filter (fun i => accepted i = true) inputs)).
Proof.
  revert done. induction inputs as [|input inputs IH]; intros done; simpl.
  - now rewrite app_nil_r.
  - rewrite click_add_step. destruct (accepted input) eqn:Ha.
    + rewrite IH, filter_cons_True by exact Ha.
      now rewrite <- app_assoc.
    + rewrite IH, filter_cons_False by congruence. reflexivity.
Qed.

(** X12: after a reset, any series of clicks on the add button leaves in
    [fields_data] exactly the accepted inputs (those with a name and a
    label), in the order of the clicks and with repeated names kept, and
    on screen the heading followed by one line per accepted input, or the
    placeholder when none was accepted. *)
Theorem fields_after_clicks (g : Globals)
    (inputs : list (string * string * string)) :
  let added := filter (fun i => accepted i = true) inputs in
  foldl click_add (screen_after_reset g) inputs
  = (displayed added, map field_of added)
  /\ length (snd (foldl click_add (screen_after_reset g) inputs))
     = length added.
Proof.
  intros added.
  assert (foldl click_add (screen_after_reset g) inputs
          = (displayed added, map field_of added)) as H
    by apply (clicks_from [] inputs).
  split; [exact H|]. rewrite H. simpl. now rewrite length_map.
Qed.

End SessionFacts.

(** ** What a detected tab name is made of *)

Section Captures.

Import ReReference.

Context (accepts : ascii -> bool).

(** A repetition of one class reads some characters of the class and
    goes on. *)
Lemma run_plus_class {R} (s : list ascii) (cap : option (list ascii))
    (k : Re.State -> option R) (res : R) :
  Re.run (Re.Plus (Re.Class accepts)) s cap k = Some res ->
  exists n, n <= length s
    /\ Forall (fun c => accepts c = true) (take n s)
    /\ k (drop n s, cap) = Some res.
Proof.
  simpl. generalize (length s) at 1. intros fuel.
  revert s cap. induction fuel as [|fuel IH]; intros s cap H.
  - destruct s as [|x s]; [discriminate|].
    destruct (accepts x) eqn:Hx; [|discriminate].
    exists 1. simpl. rewrite drop_0, take_0.
    split; [lia|]. split; [now repeat constructor | exact H].
  - destruct s as [|x s]; [discriminate|].
    destruct (accepts x) eqn:Hx; [|discriminate].
    cbn [fst snd] in H.
    replace (length s <? length (x :: s)) with true in H
      by (symmetry; apply Nat.ltb_lt; simpl; lia).
    match type of H with
    | match ?loop with _ => _ end = _ => destruct loop as [res'|] eqn:E
    end.
    + injection H as ->. apply IH in E as (n & Hn & Hall & Hk).
      exists (S n). simpl. split; [lia|]. split; [now constructor | exact Hk].
    + exists 1. simpl. rewrite drop_0, take_0.
      split; [lia|]. split; [now repeat constructor | exact H].
Qed.

(** A match of a pattern whose group is over the class leaves in the
    group only characters of the class. *)
Lemma run_capture (r : Re.regex) :
  group_over accepts r ->
  forall {R} (s : list ascii) (cap : option (list ascii))
         (k : Re.State -> option R) (res : R),
    Re.run r s cap k = Some res ->
    exists st, k st = Some res
      /\ (capture_in accepts cap -> capture_in accepts (snd st)).
Proof.
  induction 1 as [c|p| |r1 r2 _ IH1 _ IH2|r1 r2 _ IH1 _ IH2|r _ IH|];
    intros R s cap k res Hrun.
  - simpl in Hrun. destruct s as [|x s]; [discriminate|].
    destruct (bool_decide _); [|discriminate]. now exists (s, cap).
  - simpl in Hrun. destruct s as [|x s]; [discriminate|].
    destruct (p x); [|discriminate]. now exists (s, cap).
  - now exists (s, cap).
  - simpl in Hrun. apply IH1 in Hrun as (st1 & Hrun & Hc1).
    apply IH2 in Hrun as (st2 & Hrun & Hc2).
    exists st2. split; [exact Hrun | auto].
  - simpl in Hrun.
    destruct (Re.run r1 s cap k) as [res'|] eqn:E.
    + injection Hrun as ->. now apply IH1 in E.
    + now apply IH2 in Hrun.
  - simpl in Hrun.
    destruct (Re.run r s cap k) as [res'|] eqn:E.
    + injection Hrun as ->. now apply IH in E.
    + now exists (s, cap).
  - change (Re.run (Re.Plus (Re.Class accepts)) s cap
              (fun st => k (fst st, Some (take (length s - length (fst st)) s)))
            = Some res) in Hrun.
    apply run_plus_class in Hrun as (n & Hn & Hall & Hk). cbn [fst] in Hk.
    eexists. split; [exact Hk|]. intros _ l [= <-].
    rewrite length_drop. now replace (length s - (length s - n)) with n by lia.
Qed.

Lemma findall_chars_capture (r : Re.regex) (fuel : nat) (s l : list ascii) :
  group_over accepts r ->
  l ∈ Re.findall_chars fuel r s -> Forall (fun c => accepts c = true) l.
Proof.
  intros Hr. revert s. induction fuel as [|fuel IH]; intros s Hin; simpl in Hin.
  - now apply elem_of_nil in Hin.
  - destruct (Re.match_at r s) as [[rest cap]|] eqn:E.
    + apply elem_of_cons in Hin as [-> | Hin].
      * unfold Re.match_at in E.
        apply (run_capture r Hr) in E as (st & [= ->] & Hc).
        destruct cap as [l|]; [|constructor].
        apply Hc; [discriminate | reflexivity].
      * destruct (length rest <? length s); [now apply IH in Hin|].
        destruct s; [now apply elem_of_nil in Hin | now apply IH in Hin].
    + destruct s; [now apply elem_of_nil in Hin | now apply IH in Hin].
Qed.

End Captures.

Lemma tab_patterns_group :
  Forall (ReReference.group_over AiAgentNew4.name_char) AiAgentNew4.tab_patterns.
Proof.
  unfold AiAgentNew4.tab_patterns, AiAgentNew4.quote_opt, AiAgentNew4.name_group,
    Re.Lit.
  simpl. repeat constructor.
Qed.

Lemma name_char_title (c : ascii) :
  AiAgentNew4.name_char c = true ->
  AiAgentNew4.name_char (Py.to_upper c) = true
  /\ AiAgentNew4.name_char (Py.to_lower c) = true.
Proof. all_ascii c; split; reflexivity. Qed.

Lemma is_space_cases (c : ascii) :
  Py.is_space (Py.to_upper c) = Py.is_space c
  /\ Py.is_space (Py.to_lower c) = Py.is_space c.
Proof. all_ascii c; split; reflexivity. Qed.

Lemma alpha_not_lower_is_upper (c : ascii) :
  AiAgentNew4.name_char c = true -> Py.is_space c = false ->
  Py.is_lower c = false -> Py.is_upper c = true.
Proof. all_ascii c. Qed.

Lemma title_chars_name_char (prev : bool) (l : list ascii) :
  Forall (fun c => AiAgentNew4.name_char c = true) l ->
  Forall (fun c => AiAgentNew4.name_char c = true) (Py.title_chars prev l).
Proof.
  intros H. revert prev. induction H as [|c l Hc _ IH]; intros prev; simpl.
  - constructor.
  - destruct (name_char_title c Hc) as [Hu Hl].
    destruct (Py.is_alpha c); [destruct prev|]; constructor; auto.
Qed.

Lemma title_chars_spaces (prev : bool) (l : list ascii) :
  map Py.is_space (Py.title_chars prev l) = map Py.is_space l.
Proof.
  revert prev. induction l as [|c l IH]; intros prev; simpl; [reflexivity|].
  destruct (is_space_cases c) as [Hu Hl].
  destruct (Py.is_alpha c); [destruct prev|]; simpl; rewrite IH; congruence.
Qed.

Lemma lstrip_chars_suffix (l : list ascii) :
  exists spaces, l = spaces ++ Py.lstrip_chars l.
Proof.
  induction l as [|c l [spaces IH]]; simpl; [now exists []|].
  destruct (Py.is_space c); [|now exists []].
  exists (c :: spaces). simpl. now rewrite <- IH.
Qed.

Lemma strip_chars_Forall (P : ascii -> Prop) (l : list ascii) :
  Forall P l -> Forall P (Py.strip_chars l).
Proof.
  intros H. unfold Py.strip_chars. apply Forall_rev.
  destruct (lstrip_chars_suffix l) as [s1 H1].
  destruct (lstrip_chars_suffix (rev (Py.lstrip_chars l))) as [s2 H2].
  rewrite H1 in H. apply Forall_app in H as [_ H].
  apply Forall_rev in H. rewrite H2 in H. now apply Forall_app in H as [_ H].
Qed.

(** A list that neither starts nor ends with whitespace is its own
    stripped form; whether it is one depends on where its whitespace
    is. *)
Lemma lstrip_chars_fixed (l : list ascii) :
  head (map Py.is_space l) <> Some true -> Py.lstrip_chars l = l.
Proof.
  destruct l as [|c l]; simpl; [reflexivity|].
  destruct (Py.is_space c); [congruence | reflexivity].
Qed.

Lemma strip_chars_ends (l : list ascii) :
  head (map Py.is_space (Py.strip_chars l)) <> Some true
  /\ head (map Py.is_space (rev (Py.strip_chars l))) <> Some true.
Proof.
  split.
  - destruct (Py.strip_chars l) as [|c rest] eqn:E; simpl; [discriminate|].
    apply strip_chars_head in E. congruence.
  - unfold Py.strip_chars. rewrite rev_involutive.
    destruct (Py.lstrip_chars (rev (Py.lstrip_chars l))) as [|c rest] eqn:E;
      simpl; [discriminate|].
    apply lstrip_chars_head in E. congruence.
Qed.

Lemma title_strip_is_stripped (m : string) :
  Py.strip (Py.title (Py.strip m)) = Py.title (Py.strip m).
Proof.
  unfold Py.strip at 1. unfold Py.title. rewrite !chars_str. f_equal.
  unfold Py.strip. rewrite chars_str.
  set (l := Py.strip_chars (Py.chars m)).
  destruct (strip_chars_ends (Py.chars m)) as [Hhead Hlast]. fold l in Hhead, Hlast.
  unfold Py.strip_chars.
  rewrite (lstrip_chars_fixed (Py.title_chars false l))
    by now rewrite title_chars_spaces.
  rewrite lstrip_chars_fixed; [apply rev_involutive|].
  rewrite map_rev, title_chars_spaces, <- map_rev. exact Hlast.
Qed.

(** X13: for a user context of ASCII characters, every detected tab
    name is a non-empty text of ASCII letters and whitespace that starts
    with an upper-case letter and has no whitespace at either end; so it
    holds no digit, quote or punctuation of the context. *)
Theorem detected_tab_names_are_words (user_context t : string) :
  Py.isascii user_context = true ->
  t ∈ AiAgentNew4.detected_tabs (Py.lower user_context) ->
  Forall (fun c => Py.is_alpha c || Py.is_space c = true) (Py.chars t)
  /\ (exists c rest, t = String c rest /\ Py.is_upper c = true)
  /\ Py.strip t = t.
Proof.
  intros _ Ht. unfold AiAgentNew4.detected_tabs in Ht.
  rewrite fromkeys_first_occurrences in Ht.
  apply elem_of_first_occurrences, elem_of_tab_candidates in Ht
    as (pattern & m & Hp & Hm & Hs & ->).
  assert (Forall (fun c => AiAgentNew4.name_char c = true) (Py.chars m)) as Hchars.
  { unfold Re.findall in Hm. apply list_elem_of_fmap in Hm as (l & -> & Hl).
    rewrite chars_str.
    apply findall_chars_capture with (accepts := AiAgentNew4.name_char) in Hl;
      [exact Hl|].
    pose proof tab_patterns_group as Hall.
    rewrite Forall_forall in Hall. now apply Hall. }
  assert (Forall (fun c => AiAgentNew4.name_char c = true)
            (Py.chars (Py.title (Py.strip m)))) as Hname.
  { unfold Py.title, Py.strip. rewrite !chars_str.
    now apply title_chars_name_char, strip_chars_Forall. }
  split; [exact Hname|]. split; [|apply title_strip_is_stripped].
  destruct (title_strip_head m Hs) as (c & rest & Heq & Hlow & Hsp).
  exists c, rest. split; [exact Heq|].
  rewrite Heq in Hname. simpl in Hname. apply Forall_cons in Hname as [Hc _].
  now apply alpha_not_lower_is_upper.
Qed.

Lemma detected_tab_names_are_words_witness :
  Py.strip "Additional Details" = "Additional Details".
Proof.
  apply (detected_tab_names_are_words
           "Add email and path in another tab with name as Additional Details"
           "Additional Details").
  - vm_compute. reflexivity.
  - vm_compute. left.
Defined.

(** ** The entries of [multifield_info] *)

Section MultifieldKeys.

Import AiAgentNew2.

Lemma keys_dict_set_step {V} (d : list (string * V)) (key : string) (value : V) :
  map fst (dict_set d key value) = Py.fromkeys_step (map fst d) key.
Proof.
  unfold Py.fromkeys_step, Py.mem.
  induction d as [|[k0 v0] d IH].
  - reflexivity.
  - cbn [dict_set]. change (map fst ((k0, v0) :: d)) with (k0 :: map fst d).
    destruct (bool_decide_reflect (k0 = key)) as [->|Hne].
    + rewrite bool_decide_eq_true_2 by (now left). reflexivity.
    + change (map fst ((k0, v0) :: dict_set d key value))
        with (k0 :: map fst (dict_set d key value)).
      rewrite IH.
      destruct (bool_decide_reflect (key ∈ map fst d)) as [Hin|Hnin].
      * rewrite bool_decide_eq_true_2 by (now right). reflexivity.
      * rewrite bool_decide_eq_false_2; [reflexivity|].
        intros Hin. apply elem_of_cons in Hin as [-> | Hin]; congruence.
Qed.

Lemma multifield_loop_key_list (info : list (string * MultifieldInfo))
    (fields : list FieldSpec) :
  map fst (multifield_loop info fields)
  = foldl Py.fromkeys_step (map fst info)
      (map f_name (filter (fun f => f_type f = "Multifield") fields)).
Proof.
  unfold multifield_loop.
  revert info. induction fields as [|f fields IH]; intros info; simpl.
  - reflexivity.
  - rewrite IH. destruct (bool_decide_reflect (f_type f = "Multifield")) as [Ht|Ht].
    + rewrite filter_cons_True by exact Ht. simpl.
      now rewrite keys_dict_set_step.
    + now rewrite filter_cons_False by exact Ht.
Qed.

Lemma dict_set_keeps {V} (d : list (string * V)) (key : string) (value : V)
    (k : string) (v : V) :
  (k, v) ∈ d -> k <> key -> (k, v) ∈ dict_set d key value.
Proof.
  intros Hin Hne. induction d as [|[k0 v0] d IH]; simpl.
  - now apply elem_of_nil in Hin.
  - apply elem_of_cons in Hin as [[= <- <-] | Hin].
    + rewrite bool_decide_eq_false_2 by exact Hne. now left.
    + destruct (bool_decide (k0 = key)); right; [exact Hin | now apply IH].
Qed.

Lemma dict_set_sets {V} (d : list (string * V)) (key : string) (value : V) :
  (key, value) ∈ dict_set d key value.
Proof.
  induction d as [|[k0 v0] d IH]; simpl; [now left|].
  destruct (bool_decide_reflect (k0 = key)) as [->|Hne]; [now left | now right].
Qed.

Lemma multifield_loop_keeps (info : list (string * MultifieldInfo))
    (fields : list FieldSpec) (k : string) (v : MultifieldInfo) :
  (k, v) ∈ info ->
  (forall g, g ∈ fields -> f_type g = "Multifield" -> f_name g <> k) ->
  (k, v) ∈ multifield_loop info fields.
Proof.
  unfold multifield_loop.
  revert info. induction fields as [|f fields IH]; intros info Hin Hlater; simpl.
  - exact Hin.
  - apply IH; [|intros g Hg; apply Hlater; now right].
    destruct (bool_decide_reflect (f_type f = "Multifield")) as [Ht|Ht];
      [|exact Hin].
    apply dict_set_keeps; [exact Hin|].
    intros Heq. apply (Hlater f); [now left | exact Ht | now symmetry].
Qed.

(** X14: [multifield_info] has one entry per name of a Multifield, in the
    order in which the names first occur; when several Multifields share
    a name, the entry holds the label of the last of them; and the note
    about Multifields is added to the prompt exactly when there is a
    Multifield and the user context is not empty. *)
Theorem multifield_info_entries (fields : list FieldSpec) (user_context : string) :
  map fst (multifield_info fields)
    = Reference.first_occurrences
        (map f_name (filter (fun f => f_type f = "Multifield") fields))
  /\ NoDup (map fst (multifield_info fields))
  /\ (forall before f after,
        fields = before ++ f :: after ->
        f_type f = "Multifield" ->
        (forall g, g ∈ after -> f_type g = "Multifield" -> f_name g <> f_name f) ->
        (f_name f, mkMultifieldInfo (f_label f) []) ∈ multifield_info fields)
  /\ (multifield_context_note fields user_context <> None <->
      (exists f, f ∈ fields /\ f_type f = "Multifield") /\ user_context <> "").
Proof.
  assert (map fst (multifield_info fields)
          = Reference.first_occurrences
              (map f_name (filter (fun f => f_type f = "Multifield") fields)))
    as Hkeys.
  { unfold multifield_info. rewrite multifield_loop_key_list.
    apply fromkeys_first_occurrences. }
  split; [exact Hkeys|]. split; [rewrite Hkeys; apply NoDup_first_occurrences|].
  split.
  - intros before f after -> Ht Hlater.
    unfold multifield_info, multifield_loop. rewrite foldl_app. simpl.
    rewrite bool_decide_eq_true_2 by exact Ht.
    apply (multifield_loop_keeps _ after); [apply dict_set_sets | exact Hlater].
  - unfold multifield_context_note.
    assert ((exists f, f ∈ fields /\ f_type f = "Multifield") ->
            multifield_info fields <> []) as Hsome.
    { intros (f & Hf & Ht) Hnil.
      assert (f_name f ∈ map fst (multifield_info fields)) as Hin.
      { rewrite Hkeys. apply elem_of_first_occurrences, list_elem_of_fmap.
        exists f. split; [reflexivity|]. now apply list_elem_of_filter. }
      rewrite Hnil in Hin. now apply elem_of_nil in Hin. }
    assert (multifield_info fields <> [] ->
            exists f, f ∈ fields /\ f_type f = "Multifield") as Hex.
    { intros Hne. destruct (multifield_info fields) as [|[k v] rest];
        [congruence|].
      assert (k ∈ map fst ((k, v) :: rest)) as Hin by now left.
      rewrite Hkeys in Hin.
      apply elem_of_first_occurrences, list_elem_of_fmap in Hin as (f & _ & Hf).
      apply list_elem_of_filter in Hf as [Ht Hf]. now exists f. }
    destruct (multifield_info fields) as [|e rest].
    + split; [congruence|]. intros [Hf _]. now apply Hsome in Hf.
    + destruct (Py.truthy user_context) eqn:Hc.
      * split; [|discriminate]. intros _. split.
        -- now apply Hex.
        -- now apply truthy_true.
      * split; [congruence|]. intros [_ Hne].
        apply truthy_true in Hne. congruence.
Qed.

End MultifieldKeys.

(** Two Multifields named [items]: the entry holds the second label. *)
Lemma multifield_info_entries_witness :
  ("items", AiAgentNew2.mkMultifieldInfo "Second" [])
  ∈ AiAgentNew2.multifield_info
      [mkField "Multifield" "items" "First"; Examples.text_field;
       mkField "Multifield" "items" "Second"].
Proof.
  pose proof (multifield_info_entries
    [mkField "Multifield" "items" "First"; Examples.text_field;
     mkField "Multifield" "items" "Second"] "") as (_ & _ & Hlast & _).
  apply (Hlast [mkField "Multifield" "items" "First"; Examples.text_field]
           (mkField "Multifield" "items" "Second") [] eq_refl eq_refl).
  intros g Hg. now apply elem_of_nil in Hg.
Defined.

(** ** The JavaScript context of [ai_agent_new.py] *)

Section JsContextSent.
Context (templates : Templates) (set_order : list string -> list string)
  (query : QueryOracle)
  (generator : AiAgentNewGeneration.Prompt -> Res string)
  (json_loads : string -> Res Json).

Ltac answer_queries Hans :=
  repeat match goal with
    | |- context [match query ?t ?k with _ => _ end] =>
        let docs := fresh "docs" in
        let rest := fresh "rest" in
        destruct (Hans t k) as (docs & rest & ->); simpl
    end.

(** X15: in [ai_agent_new.py] the words "validate" and "required" make the
    retriever query the JavaScript examples, but the prompt takes them
    only when the context contains "validation" or a Multifield is among
    the fields: with neither, the examples are retrieved and the
    JavaScript section of the prompt sent to the generator is empty. *)
Theorem js_context_retrieved_but_not_sent (f : FieldSpec)
    (fields : list FieldSpec) (user_context : string) :
  (forall text k, exists docs rest, query text k = Ok (docs :: rest)) ->
  (forall g, g ∈ f :: fields -> f_type g <> "Multifield") ->
  Py.contains "validation" (Py.lower user_context) = false ->
  Py.contains "validate" (Py.lower user_context) = true
  \/ Py.contains "required" (Py.lower user_context) = true ->
  let log :=
    snd (AiAgentNewGeneration.generate_sling_model_with_rag templates set_order
           query generator json_loads (f :: fields) user_context []) in
  (AiAgentNew.js_query, 3) ∈ queries_of log
  /\ exists prompt,
       last log = Some (EvGenerate prompt)
       /\ AiAgentNewGeneration.prompt_js_context prompt = "".
Proof.
  intros Hans Hno Hval Hkw log. subst log.
  assert (AiAgentNew.has_multifield (f :: fields) = false) as Hm.
  { unfold AiAgentNew.has_multifield, Py.mem.
    apply bool_decide_eq_false_2. intros Hin.
    apply list_elem_of_fmap in Hin as (g & Hg & Hin).
    now apply (Hno g Hin). }
  assert (AiAgentNew.needs_validation user_context = true) as Hneeds.
  { unfold AiAgentNew.needs_validation. rewrite Hval.
    destruct Hkw as [-> | ->]; [reflexivity | apply orb_true_r]. }
  assert (forall rag, AiAgentNewGeneration.js_section (f :: fields) user_context rag
                      = "") as Hjs.
  { intros rag. unfold AiAgentNewGeneration.js_section. rewrite Hval.
    replace (existsb _ (f :: fields)) with false; [now rewrite andb_false_r|].
    symmetry. apply not_true_is_false. intros Hex.
    apply existsb_exists in Hex as (g & Hg & Ht).
    apply bool_decide_eq_true in Ht. apply (Hno g); [|exact Ht].
    now apply list_elem_of_In. }
  unfold AiAgentNewGeneration.generate_sling_model_with_rag.
  unfold AiAgentNew.retrieve_targeted_context, AiAgentNew.retrieve_body.
  rewrite Hneeds, Hm. unfold_eff. simpl.
  destruct (Py.truthy (AiAgentNew.field_types_str set_order (f :: fields)));
    answer_queries Hans;
    match goal with
    | |- context [generator ?p] =>
        destruct (generator p) as [ai_output|e]; simpl;
        [destruct (json_loads ai_output) as [parsed|e]; simpl;
         [destruct (AiAgent.postprocess parsed) as [outputs|e]; simpl|]|]
    end;
    unfold AiAgentNewGeneration.generation_handler, Eff.raise, mret, Eff_ret,
      Eff.ret;
    try destruct (exc_is_json_decode_error e); simpl;
    (split;
     [simpl; rewrite !elem_of_cons; tauto
     | eexists; split; [reflexivity | apply Hjs]]).
Qed.

End JsContextSent.

Lemma js_context_retrieved_but_not_sent_witness :
  let log :=
    snd (AiAgentNewGeneration.generate_sling_model_with_rag Examples.no_templates
           (fun l => l) Examples.one_document
           (MoreExamples.fixed_answer AiAgentNewGeneration.Prompt)
           MoreExamples.rejects [Examples.title_field]
           "the title is required" []) in
  (AiAgentNew.js_query, 3) ∈ queries_of log
  /\ exists prompt,
       last log = Some (EvGenerate prompt)
       /\ AiAgentNewGeneration.prompt_js_context prompt = "".
Proof.
  apply (js_context_retrieved_but_not_sent Examples.no_templates (fun l => l)
           Examples.one_document
           (MoreExamples.fixed_answer AiAgentNewGeneration.Prompt)
           MoreExamples.rejects Examples.title_field [] "the title is required").
  - intros text k. eexists. eexists. reflexivity.
  - intros g Hg. apply list_elem_of_singleton in Hg as ->. discriminate.
  - vm_compute. reflexivity.
  - right. vm_compute. reflexivity.
Defined.
